(** * Creatte contact system: the reminder functions

    A shallow embedding of the two Netlify functions that push LINE
    messages, [netlify/functions/check-reminders.js] (the hourly reminder
    cycle) and [netlify/functions/send-reminder.js] (the ad-hoc broadcast),
    followed by the properties their specification states about them.

    Conventions of the embedding:
    - a JavaScript string is a [string], the UTF-8 bytes of its text;
    - a value that came out of [JSON.parse] is a [json]; [undefined] is
      the [None] of [option json], so a property read [o.k] on a flat
      record [o : gmap string json] is the lookup [o !! k];
    - an [async] function is a computation in [io]: it threads the list of
      HTTPS requests issued so far and ends [Resolved] or [Rejected];
    - an object handed to [JSON.stringify] is kept as the object (a typed
      record or constructor), not as its serialisation;
    - [console.log], [console.warn] and [console.error] write no state the
      functions read back and are left out. *)

From stdpp Require Import base option list strings gmap pretty.
From Stdlib Require Import Ascii ZArith Lia.

Set Warnings "-register-all".

Open Scope string_scope.
Open Scope Z_scope.
Open Scope list_scope.

(** ** What the functions take from the JavaScript runtime

    Numbers are IEEE doubles and dates are parsed by the engine; neither
    is code of the repository.  The development is parametric in them. *)
Class Runtime := {
  number : Type;
  (** [ToBoolean] on a number: [false] for [+0], [-0] and [NaN]. *)
  Number_ToBoolean : number -> bool;
  (** [===] on two numbers. *)
  Number_equal : number -> number -> bool;
  (** [ToString] on a number, as a template literal applies it. *)
  Number_ToString : number -> string;
  (** [Number(s)] on a string. *)
  Number_of_string : string -> number;
  (** The time value, in milliseconds, of [new Date(s)]; [None] is the
      Invalid Date, whose time value is [NaN]. *)
  Date_parse : string -> option Z;
  (** [toISOString()] of the date with the given time value. *)
  Date_toISOString : Z -> string
}.

Module JS.

(** The line feed written [\n] in the sources. *)
Definition LF : string := String "010"%char EmptyString.

Section Values.
Context `{Runtime}.

(** Values produced by [JSON.parse] and by [parseFirestoreDoc]. *)
Inductive json : Type :=
| JNull
| JBool (b : bool)
| JNum (n : number)
| JStr (s : string)
| JArr (items : list json)
| JObj (members : list (string * json)).

(** [ToBoolean]; [None] is [undefined]. *)
Definition truthy (v : option json) : bool :=
  match v with
  | None | Some JNull => false
  | Some (JBool b) => b
  | Some (JNum n) => Number_ToBoolean n
  | Some (JStr s) => negb (String.eqb s EmptyString)
  | Some (JArr _) | Some (JObj _) => true
  end.

(** [a || b] and [a && b] on values: they return one of their operands. *)
Definition js_or (a b : option json) : option json :=
  if truthy a then a else b.

Definition js_and (a b : option json) : option json :=
  if truthy a then b else a.

(** [a === b].  Two objects or arrays are equal only when they are the
    same reference; every comparison in the functions is between values
    read from two different parsed records or with a string literal, so
    references never coincide. *)
Definition strict_eq (a b : option json) : bool :=
  match a, b with
  | None, None => true
  | Some JNull, Some JNull => true
  | Some (JBool x), Some (JBool y) => Bool.eqb x y
  | Some (JNum x), Some (JNum y) => Number_equal x y
  | Some (JStr x), Some (JStr y) => String.eqb x y
  | _, _ => false
  end.

(** [Array.prototype.join]. *)
Fixpoint join (sep : string) (parts : list string) : string :=
  match parts with
  | [] => EmptyString
  | [p] => p
  | p :: rest => p +:+ sep +:+ join sep rest
  end.

(** [ToString], as applied by template literals and to the second
    argument of [String.prototype.replace]. *)
Fixpoint json_ToString (v : json) : string :=
  match v with
  | JNull => "null"
  | JBool true => "true"
  | JBool false => "false"
  | JNum n => Number_ToString n
  | JStr s => s
  | JArr items =>
      join "," (map (fun x => match x with
                              | JNull => EmptyString
                              | _ => json_ToString x
                              end) items)
  | JObj _ => "[object Object]"
  end.

Definition ToString (v : option json) : string :=
  match v with
  | None => "undefined"
  | Some j => json_ToString j
  end.

End Values.

(** *** [String.prototype.replace] with a string pattern *)

(** [Some rest] when [s] is [pat] followed by [rest]. *)
Fixpoint strip_prefix (pat s : string) : option string :=
  match pat, s with
  | EmptyString, _ => Some s
  | String a pat', String b s' =>
      if Ascii.eqb a b then strip_prefix pat' s' else None
  | String _ _, EmptyString => None
  end.

(** Text before and after the first occurrence of [pat] in [s]. *)
Fixpoint split_first (pat s : string) : option (string * string) :=
  match strip_prefix pat s with
  | Some after => Some (EmptyString, after)
  | None =>
      match s with
      | EmptyString => None
      | String c rest =>
          match split_first pat rest with
          | Some (before, after) => Some (String c before, after)
          | None => None
          end
      end
  end.

(** [GetSubstitution] for a match without capture groups: in the
    replacement text [$$] is a dollar sign, [$&] the matched text, [$`]
    the text before the match and [$'] the text after it; any other [$]
    stands for itself. *)
Fixpoint GetSubstitution (matched before after replacement : string) : string :=
  match replacement with
  | EmptyString => EmptyString
  | String c rest =>
      if Ascii.eqb c "$" then
        match rest with
        | EmptyString => String c EmptyString
        | String d rest' =>
            if Ascii.eqb d "$" then
              String "$" (GetSubstitution matched before after rest')
            else if Ascii.eqb d "&" then
              matched +:+ GetSubstitution matched before after rest'
            else if Ascii.eqb d "`" then
              before +:+ GetSubstitution matched before after rest'
            else if Ascii.eqb d "'" then
              after +:+ GetSubstitution matched before after rest'
            else
              String c (GetSubstitution matched before after rest)
        end
      else String c (GetSubstitution matched before after rest)
  end.

(** [s.replace(pat, replacement)] where [pat] is a string: only the first
    occurrence is replaced. *)
Definition String_replace (s pat replacement : string) : string :=
  match split_first pat s with
  | None => s
  | Some (before, after) =>
      before +:+ GetSubstitution pat before after replacement +:+ after
  end.

(** [s.split('/').pop()]: the text after the last slash. *)
Fixpoint after_last_slash (s current : string) : string :=
  match s with
  | EmptyString => current
  | String c rest =>
      if Ascii.eqb c "/" then after_last_slash rest rest
      else after_last_slash rest current
  end.

Definition split_pop (s : string) : string := after_last_slash s s.

(** *** [process.env] *)

(** [ToBoolean] and [ToString] on an environment variable, which is a
    string or [undefined]. *)
Definition env_truthy (v : option string) : bool :=
  match v with
  | Some s => negb (String.eqb s EmptyString)
  | None => false
  end.

Definition env_string (v : option string) : string :=
  match v with
  | Some s => s
  | None => "undefined"
  end.

(** *** Promises and the network *)

Inductive error : Type :=
| Error (message : string)
| TypeError (message : string)
| SyntaxError (message : string).

Definition message (e : error) : string :=
  match e with
  | Error m | TypeError m | SyntaxError m => m
  end.

Inductive outcome (A : Type) : Type :=
| Resolved (a : A)
| Rejected (e : error).
Arguments Resolved {A} a.
Arguments Rejected {A} e.

Section Network.
Context `{Runtime}.

(** The body written to an HTTPS request, before [JSON.stringify]:
    [{ to, messages: [{ type: 'text', text }] }].  A member whose value is
    [undefined] is dropped by the serialisation. *)
Record push_body := {
  to : option json;
  text : option json
}.

(** The [options] of [https.request] and the body written to it.  The
    [Content-Length] header is the byte length of the serialised body. *)
Record http_request := {
  hostname : string;
  path : string;
  method : string;
  content_type : option string;
  authorization : option string;
  written : option push_body
}.

(** What the [res] of [https.request] carries at its [end] event. *)
Record http_response := {
  statusCode : Z;
  data : string
}.

(** The remote side: given the requests issued so far and a new one, it
    answers with a response or the request emits [error]. *)
Definition network : Type :=
  list http_request -> http_request -> outcome http_response.

(** An [async] computation: it extends the list of requests issued and
    settles. *)
Definition io (A : Type) : Type :=
  list http_request -> list http_request * outcome A.

Definition io_ret {A} (a : A) : io A := fun log => (log, Resolved a).

Definition io_bind {A B} (m : io A) (k : A -> io B) : io B :=
  fun log =>
    match m log with
    | (log', Resolved a) => k a log'
    | (log', Rejected e) => (log', Rejected e)
    end.

(** [throw e]. *)
Definition throw {A} (e : error) : io A := fun log => (log, Rejected e).

(** [try { await m; ... } catch (err) { ... }]. *)
Definition try_catch {A} (m : io A) (handle : error -> io A) : io A :=
  fun log =>
    match m log with
    | (log', Resolved a) => (log', Resolved a)
    | (log', Rejected e) => handle e log'
    end.

(** Issue one request against the remote side. *)
Definition https_request (net : network) (req : http_request) : io http_response :=
  fun log => (log ++ [req], net log req).

(** [for (const x of xs) { ... }] with an awaiting body over a loop state. *)
Fixpoint for_of {A S} (body : S -> A -> io S) (xs : list A) (st : S) : io S :=
  match xs with
  | [] => io_ret st
  | x :: rest => io_bind (body st x) (for_of body rest)
  end.

End Network.

End JS.

(** [const x = await m; k]. *)
Notation "'await' x <- m ; k" := (JS.io_bind m (fun x => k))
  (at level 10, x name, m at level 100, k at level 200).

(** ** [netlify/functions/check-reminders.js] *)
Module CheckReminders.
Import JS.

Section Functions.
Context `{Runtime}.

(** The response of Firestore's [documents.list], after [JSON.parse], at
    the schema of the REST API: a document has a [name] and typed
    [fields]; a field value carries exactly one of [stringValue],
    [booleanValue], [integerValue] (a decimal string), [doubleValue] or
    another member (null, timestamp, map, array, ...). *)
Inductive firestore_value : Type :=
| StringValue (s : string)
| BooleanValue (b : bool)
| IntegerValue (s : string)
| DoubleValue (n : number)
| OtherValue.

Record firestore_document := {
  name : string;
  fields : option (list (string * firestore_value))
}.

Record list_documents := {
  documents : option (list firestore_document)
}.

(** [JSON.parse] on the body of the Firestore response; [None] when it
    throws. *)
Variable JSON_parse : string -> option list_documents.

Variable net : network.

(** What [request] resolves with: [{ status, body }]. *)
Record reply := {
  status : Z;
  res_body : string
}.

(** [request(options, body)]: resolves with the status and the collected
    body whatever the status is, rejects when the request emits [error]. *)
Definition request (options : http_request) (body : option push_body) : io reply :=
  await res <- https_request net
      {| hostname := hostname options; path := path options;
         method := method options; content_type := content_type options;
         authorization := authorization options; written := body |};
  io_ret {| status := statusCode res; res_body := data res |}.

(** The value stored for one typed field. *)
Definition field_value (val : firestore_value) : json :=
  match val with
  | StringValue s => JStr s
  | BooleanValue b => JBool b
  | IntegerValue s => JNum (Number_of_string s)
  | DoubleValue n => JNum n
  | OtherValue => JNull
  end.

Definition parseFirestoreDoc (doc : firestore_document) : gmap string json :=
  let result :=
    foldl (fun (r : gmap string json) kv => <[kv.1 := field_value kv.2]> r)
          (∅ : gmap string json) (default [] (fields doc)) in
  <["__backendId" := JStr (split_pop (name doc))]> result.

Definition getFirestoreDocs (projectId apiKey collectionName : string)
  : io (list (gmap string json)) :=
  let path := "/v1/projects/" +:+ projectId
              +:+ "/databases/(default)/documents/" +:+ collectionName
              +:+ "?key=" +:+ apiKey +:+ "&pageSize=200" in
  await res <- request
      {| hostname := "firestore.googleapis.com"; path := path;
         method := "GET"; content_type := None; authorization := None;
         written := None |} None;
  if negb (status res =? 200) then io_ret []
  else
    match JSON_parse (res_body res) with
    | None => throw (SyntaxError "JSON.parse")
    | Some parsed =>
        io_ret (map parseFirestoreDoc (default [] (documents parsed)))
    end.

Definition pushLine (userId : option json) (text lineToken : string) : io reply :=
  let body := {| to := userId; text := Some (JStr text) |} in
  request
    {| hostname := "api.line.me"; path := "/v2/bot/message/push";
       method := "POST"; content_type := Some "application/json";
       authorization := Some ("Bearer " +:+ lineToken);
       written := None |} (Some body).

(** *** The handler *)

Record process_env := {
  LINE_CHANNEL_ACCESS_TOKEN : option string;
  FIREBASE_PROJECT_ID : option string;
  FIREBASE_WEB_API_KEY : option string
}.

Record sent_entry := {
  student : option json;
  label : string;
  lineStatus : Z
}.

Record skipped_entry := {
  skipped_student : option json;
  skipped_diffMin : option Z
}.

(** The object the handler serialises into the body of its response. *)
Inductive response_body : Type :=
| ErrorBody (error : string)
| SummaryBody (message : string) (sent : list sent_entry)
              (skippedCount : nat) (checkedAt : string).

Record response := {
  statusCode : Z;
  body : response_body
}.

(** The settings used when no [reminder_settings] record is stored. *)
Definition default_template : string :=
  "{生徒名}さん、授業のリマインドです。" +:+ LF +:+ LF
  +:+ "📅 {日時}" +:+ LF +:+ "📚 {科目}" +:+ LF +:+ "👨‍🏫 {担当講師}" +:+ LF +:+ LF
  +:+ "ご予定の変更がある場合はご連絡ください。".

Definition default_settings : gmap string json :=
  list_to_map
    [("remind_24h", JBool true); ("remind_3h", JBool true);
     ("remind_1h", JBool false); ("template_24h", JStr default_template)].

(** The template used when the settings carry no usable [template_24h]. *)
Definition fallback_template : string :=
  "{生徒名}さん、授業リマインド" +:+ LF +:+ "📅{日時}" +:+ LF +:+ "📚{科目}".

(** [sent] and [skipped], the two arrays the loop pushes to. *)
Record cycle := {
  sent : list sent_entry;
  skipped : list skipped_entry
}.

(** [classTime]: the time value of the date built from the schedule. *)
Definition classTime (schedule : gmap string json) : option Z :=
  Date_parse (ToString (schedule !! "schedule_date") +:+ "T"
              +:+ ToString (schedule !! "schedule_time") +:+ ":00+09:00").

(** [Math.floor((classTime - now) / 60000)]; [None] is [NaN]. *)
Definition diffMin (schedule : gmap string json) (now : Z) : option Z :=
  match classTime schedule with
  | Some t => Some ((t - now) / 60000)
  | None => None
  end.

(** [d >= c] and [d <= c] on a number that may be [NaN]. *)
Definition num_ge (d : option Z) (c : Z) : bool :=
  match d with
  | Some m => c <=? m
  | None => false
  end.

Definition num_le (d : option Z) (c : Z) : bool :=
  match d with
  | Some m => m <=? c
  | None => false
  end.

Definition is24h (settings : gmap string json) (d : option Z) : option json :=
  js_and (js_and (settings !! "remind_24h") (Some (JBool (num_ge d 1425))))
         (Some (JBool (num_le d 1455))).

Definition is3h (settings : gmap string json) (d : option Z) : option json :=
  js_and (js_and (settings !! "remind_3h") (Some (JBool (num_ge d 165))))
         (Some (JBool (num_le d 195))).

Definition is1h (settings : gmap string json) (d : option Z) : option json :=
  js_and (js_and (settings !! "remind_1h") (Some (JBool (num_ge d 45))))
         (Some (JBool (num_le d 75))).

(** [is24h ? '24時間前' : is3h ? '3時間前' : '1時間前']. *)
Definition label_of (settings : gmap string json) (d : option Z) : string :=
  if truthy (is24h settings d) then "24時間前"
  else if truthy (is3h settings d) then "3時間前"
  else "1時間前".

Definition dateStr (schedule : gmap string json) : string :=
  ToString (schedule !! "schedule_date") +:+ " "
  +:+ ToString (schedule !! "schedule_time").

(** The chain of four [replace] calls on a template string. *)
Definition render (template : string) (schedule : gmap string json) : string :=
  String_replace
    (String_replace
       (String_replace
          (String_replace template "{生徒名}"
             (ToString (schedule !! "student_name")))
          "{日時}" (dateStr schedule))
       "{科目}"
       (ToString (js_or (schedule !! "subject") (Some (JStr EmptyString)))))
    "{担当講師}"
    (ToString (js_or (schedule !! "instructor") (Some (JStr EmptyString)))).

(** [messageBody]: the stored template, or the fallback when it is falsy.
    Only a string has a [replace] method; on any other truthy value the
    call throws. *)
Definition messageBody (settings schedule : gmap string json) : outcome string :=
  match js_or (settings !! "template_24h") (Some (JStr fallback_template)) with
  | Some (JStr template) => Resolved (render template schedule)
  | _ => Rejected (TypeError "replace is not a function")
  end.

(** [text]: the banner, a line feed and the body. *)
Definition banner (label body : string) : string :=
  "【授業リマインド - " +:+ label +:+ "】" +:+ LF +:+ body.

(** The two guards at the head of the loop body. *)
Definition missing_field (schedule : gmap string json) : bool :=
  negb (truthy (schedule !! "schedule_date"))
  || negb (truthy (schedule !! "schedule_time"))
  || negb (truthy (schedule !! "student_name")).

Definition attended (schedule : gmap string json) : bool :=
  strict_eq (schedule !! "attendance") (Some (JStr "完了"))
  || strict_eq (schedule !! "attendance") (Some (JStr "欠席")).

(** [students.find(s => s.student_name === schedule.student_name)]. *)
Definition find_student (students : list (gmap string json))
    (schedule : gmap string json) : option (gmap string json) :=
  List.find (fun s : gmap string json =>
               strict_eq (s !! "student_name") (schedule !! "student_name"))
            students.

(** [student?.student_line_id]. *)
Definition line_id (student : option (gmap string json)) : option json :=
  match student with
  | Some s => s !! "student_line_id"
  | None => None
  end.

(** One turn of [for (const schedule of schedules)]; each [continue]
    returns the state as it stands. *)
Definition iteration (settings : gmap string json)
    (students : list (gmap string json)) (now : Z) (lineToken : string)
    (st : cycle) (schedule : gmap string json) : io cycle :=
  if missing_field schedule then io_ret st
  else if attended schedule then io_ret st
  else
    let d := diffMin schedule now in
    if negb (truthy (is24h settings d)) && negb (truthy (is3h settings d))
       && negb (truthy (is1h settings d))
    then
      io_ret {| sent := sent st;
                skipped := skipped st ++
                  [{| skipped_student := schedule !! "student_name";
                      skipped_diffMin := d |}] |}
    else
      let student := find_student students schedule in
      if negb (truthy (line_id student)) then io_ret st
      else
        let label := label_of settings d in
        match messageBody settings schedule with
        | Rejected e => throw e
        | Resolved body =>
            await res <- pushLine (line_id student) (banner label body) lineToken;
            io_ret {| sent := sent st ++
                        [{| student := schedule !! "student_name";
                            label := label; lineStatus := status res |}];
                      skipped := skipped st |}
        end.

(** The names of the missing variables: [[...].filter(Boolean)]. *)
Definition missing_names (env : process_env) : list string :=
  omap id
    [ if env_truthy (LINE_CHANNEL_ACCESS_TOKEN env) then None
      else Some "LINE_CHANNEL_ACCESS_TOKEN";
      if env_truthy (FIREBASE_PROJECT_ID env) then None
      else Some "FIREBASE_PROJECT_ID";
      if env_truthy (FIREBASE_WEB_API_KEY env) then None
      else Some "FIREBASE_WEB_API_KEY" ].

Definition has_type (t : string) (d : gmap string json) : bool :=
  strict_eq (d !! "type") (Some (JStr t)).

(** [exports.handler]; [now] is the time value of the [now] date. *)
Definition handler (env : process_env) (now : Z) : io response :=
  let lineToken := LINE_CHANNEL_ACCESS_TOKEN env in
  let projectId := FIREBASE_PROJECT_ID env in
  let apiKey := FIREBASE_WEB_API_KEY env in
  if negb (env_truthy lineToken) || negb (env_truthy projectId)
     || negb (env_truthy apiKey)
  then
    io_ret {| statusCode := 500;
              body := ErrorBody ("環境変数が不足: "
                                 +:+ join ", " (missing_names env)) |}
  else
    await allData <- getFirestoreDocs (env_string projectId)
                       (env_string apiKey) "system_data";
    let schedules := List.filter (has_type "schedule") allData in
    let students := List.filter (has_type "student") allData in
    let settings :=
      match List.find (has_type "reminder_settings") allData with
      | Some found => found
      | None => default_settings
      end in
    await final <- for_of (iteration settings students now
                             (env_string lineToken))
                     schedules {| sent := []; skipped := [] |};
    io_ret {| statusCode := 200;
              body := SummaryBody
                        (pretty (length (sent final))
                         +:+ "件のリマインドを送信しました")
                        (sent final)
                        (length (skipped final))
                        (Date_toISOString now) |}.

End Functions.

End CheckReminders.

(** ** [netlify/functions/send-reminder.js] *)
Module SendReminder.
Import JS.

Section Functions.
Context `{Runtime}.

(** [JSON.parse] on the body of the event; [None] when it throws. *)
Variable JSON_parse : string -> option json.

Variable net : network.

(** The fields of the Netlify event the handler reads; a request without
    a body has [body] [null]. *)
Record event := {
  httpMethod : string;
  body : option string
}.

Record result := {
  userId : json;
  status : string;
  error : option string
}.

(** The body of the response: a plain text or a serialised object. *)
Inductive response_body : Type :=
| Text (s : string)
| ErrorBody (error : string)
| ResultsBody (results : list result).

Record response := {
  statusCode : Z;
  resp_body : response_body
}.

(** [pushMessage]: resolves with the body on status 200, rejects on any
    other status and when the request emits [error]. *)
Definition pushMessage (userId : json) (text : option json)
    (accessToken : string) : io string :=
  await res <- https_request net
      {| hostname := "api.line.me"; path := "/v2/bot/message/push";
         method := "POST"; content_type := Some "application/json";
         authorization := Some ("Bearer " +:+ accessToken);
         written := Some {| to := Some userId; text := text |} |};
  if JS.statusCode res =? 200 then io_ret (data res)
  else throw (Error ("LINE API error: " +:+ pretty (JS.statusCode res)
                     +:+ " " +:+ data res)).

(** A property read [v.k] on a parsed value other than [null], for a key
    that no prototype defines; [members] lists an object's own
    properties, each key once. *)
Definition property (v : json) (k : string) : option json :=
  match v with
  | JObj members => snd <$> List.find (fun kv => String.eqb (fst kv) k) members
  | _ => None
  end.

Definition isArray (v : option json) : bool :=
  match v with
  | Some (JArr _) => true
  | _ => false
  end.

Definition items (v : option json) : list json :=
  match v with
  | Some (JArr l) => l
  | _ => []
  end.

(** The body of [for (const userId of userIds)]: a [try] around the push
    and a [catch] that records the failure. *)
Definition attempt (message : option json) (accessToken : string)
    (results : list result) (userId : json) : io (list result) :=
  try_catch
    (await pushed <- pushMessage userId message accessToken;
     io_ret (results ++
               [{| userId := userId; status := "success"; error := None |}]))
    (fun err =>
       io_ret (results ++
                 [{| userId := userId; status := "error";
                     error := Some (JS.message err) |}])).

(** [exports.handler]; [accessToken] is
    [process.env.LINE_CHANNEL_ACCESS_TOKEN]. *)
Definition handler (accessToken : option string) (ev : event) : io response :=
  if negb (String.eqb (httpMethod ev) "POST") then
    io_ret {| statusCode := 405; resp_body := Text "Method Not Allowed" |}
  else if negb (env_truthy accessToken) then
    io_ret {| statusCode := 500;
              resp_body :=
                ErrorBody "LINE_CHANNEL_ACCESS_TOKEN が設定されていません" |}
  else
    match JSON_parse (match body ev with Some s => s | None => "null" end) with
    | None =>
        io_ret {| statusCode := 400; resp_body := ErrorBody "Invalid JSON" |}
    | Some JNull => throw (TypeError "Cannot destructure null")
    | Some parsed =>
        let userIds := property parsed "userIds" in
        let message := property parsed "message" in
        if negb (truthy userIds) || negb (isArray userIds)
           || negb (truthy message)
        then
          io_ret {| statusCode := 400;
                    resp_body :=
                      ErrorBody "userIds (配列) と message が必要です" |}
        else
          await results <- for_of (attempt message (env_string accessToken))
                             (items userIds) [];
          io_ret {| statusCode := 200; resp_body := ResultsBody results |}
    end.

End Functions.

End SendReminder.

(** ** The vocabulary of the specification

    Definitions that follow the wording of the specification rather than
    the sources; the theorems below compare the two. *)
Module Spec.
Import JS.

(** The three reminder windows, in their priority order. *)
Inductive ReminderWindow : Type :=
| TwentyFourHour
| ThreeHour
| OneHour.

Definition priority_order : list ReminderWindow :=
  [TwentyFourHour; ThreeHour; OneHour].

(** Nominal minutes before the class, and the tolerance around them. *)
Definition offset (w : ReminderWindow) : Z :=
  match w with
  | TwentyFourHour => 1440
  | ThreeHour => 180
  | OneHour => 60
  end.

Definition tolerance : Z := 15.

(** [d] lies in the closed band [offset - 15, offset + 15]; [None], the
    difference to an invalid date, lies in no band. *)
Definition within_band (w : ReminderWindow) (d : option Z) : bool :=
  match d with
  | Some m => (offset w - tolerance <=? m) && (m <=? offset w + tolerance)
  | None => false
  end.

(** The label each window is announced with. *)
Definition window_label (w : ReminderWindow) : string :=
  match w with
  | TwentyFourHour => "24時間前"
  | ThreeHour => "3時間前"
  | OneHour => "1時間前"
  end.

Section Vocabulary.
Context `{Runtime}.

(** The enabled flag of a window in the settings record. *)
Definition enabled (settings : gmap string json) (w : ReminderWindow) : bool :=
  match w with
  | TwentyFourHour => truthy (settings !! "remind_24h")
  | ThreeHour => truthy (settings !! "remind_3h")
  | OneHour => truthy (settings !! "remind_1h")
  end.

(** A window is due when it is enabled and the difference is in its band. *)
Definition due (settings : gmap string json) (d : option Z)
    (w : ReminderWindow) : bool :=
  enabled settings w && within_band w d.

(** [matchWindow]: the first due window in priority order, if any. *)
Definition matchWindow (settings : gmap string json) (d : option Z)
  : option ReminderWindow :=
  List.find (due settings d) priority_order.

(** The predicate the handler computes for each window. *)
Definition predicate_of (settings : gmap string json) (d : option Z)
    (w : ReminderWindow) : option json :=
  match w with
  | TwentyFourHour => CheckReminders.is24h settings d
  | ThreeHour => CheckReminders.is3h settings d
  | OneHour => CheckReminders.is1h settings d
  end.

(** A push of [text] to the recipient [userId] on the Notification
    Channel, under the access token [lineToken]. *)
Definition push_request (lineToken : string) (userId text : option json)
  : http_request :=
  {| hostname := "api.line.me"; path := "/v2/bot/message/push";
     method := "POST"; content_type := Some "application/json";
     authorization := Some ("Bearer " +:+ lineToken);
     written := Some {| to := userId; text := text |} |}.

(** The listing of a collection of the Data Source. *)
Definition list_request (projectId apiKey collectionName : string)
  : http_request :=
  {| hostname := "firestore.googleapis.com";
     path := "/v1/projects/" +:+ projectId
             +:+ "/databases/(default)/documents/" +:+ collectionName
             +:+ "?key=" +:+ apiKey +:+ "&pageSize=200";
     method := "GET"; content_type := None; authorization := None;
     written := None |}.

(** A field is empty or missing. *)
Definition empty_or_missing (v : option json) : Prop :=
  v = None \/ v = Some (JStr EmptyString).

(** A schedule the cycle does not consider: its class is completed or the
    student was absent, or it lacks a date, a time or a student name. *)
Definition excluded (schedule : gmap string json) : Prop :=
  schedule !! "attendance" = Some (JStr "完了")
  \/ schedule !! "attendance" = Some (JStr "欠席")
  \/ empty_or_missing (schedule !! "schedule_date")
  \/ empty_or_missing (schedule !! "schedule_time")
  \/ empty_or_missing (schedule !! "student_name").

(** A schedule that passes both guards of the loop. *)
Definition eligible (schedule : gmap string json) : bool :=
  negb (CheckReminders.missing_field schedule)
  && negb (CheckReminders.attended schedule).

(** Some window is due for the schedule at [now]. *)
Definition some_window_due (settings : gmap string json) (now : Z)
    (schedule : gmap string json) : bool :=
  let d := CheckReminders.diffMin schedule now in
  truthy (CheckReminders.is24h settings d)
  || truthy (CheckReminders.is3h settings d)
  || truthy (CheckReminders.is1h settings d).

(** The student of the schedule has a recipient identifier. *)
Definition has_recipient (students : list (gmap string json))
    (schedule : gmap string json) : bool :=
  truthy (CheckReminders.line_id
            (CheckReminders.find_student students schedule)).

(** Eligible and due, but without a recipient. *)
Definition unreachable (settings : gmap string json)
    (students : list (gmap string json)) (now : Z)
    (schedule : gmap string json) : bool :=
  eligible schedule && some_window_due settings now schedule
  && negb (has_recipient students schedule).

(** The outcome record of one recipient of a broadcast, given how the
    Notification Channel answered the push to that recipient: success on
    status 200, error otherwise. *)
Definition outcome_record (userId : json) (answer : outcome http_response)
  : SendReminder.result :=
  match answer with
  | Resolved res =>
      if JS.statusCode res =? 200 then
        {| SendReminder.userId := userId;
           SendReminder.status := "success";
           SendReminder.error := None |}
      else
        {| SendReminder.userId := userId;
           SendReminder.status := "error";
           SendReminder.error :=
             Some ("LINE API error: " +:+ pretty (JS.statusCode res)
                   +:+ " " +:+ data res) |}
  | Rejected e =>
      {| SendReminder.userId := userId;
         SendReminder.status := "error";
         SendReminder.error := Some (JS.message e) |}
  end.

(** The channel failed: it did not answer with status 200. *)
Definition channel_failed (answer : outcome http_response) : Prop :=
  forall res, answer = Resolved res -> JS.statusCode res <> 200.

(** The answers of the channel to one push per recipient, in order,
    starting from the requests [log] issued before. *)
Fixpoint answers (net : network) (lineToken : string) (message : option json)
    (log : list http_request) (userIds : list json)
  : list (outcome http_response) :=
  match userIds with
  | [] => []
  | userId :: rest =>
      let req := push_request lineToken (Some userId) message in
      net log req :: answers net lineToken message (log ++ [req]) rest
  end.

(** What a broadcast to [userIds] reports when it runs from the requests
    [log]: one push per identifier, in order, status 200, and one record
    per identifier, in order, each saying error exactly when the channel
    failed on the push to that identifier. *)
Definition broadcast_report (net : network) (lineToken : string)
    (message : option json) (log : list http_request) (userIds : list json)
    (run : list http_request * outcome SendReminder.response) : Prop :=
  let replies := answers net lineToken message log userIds in
  exists results,
    run =
    (log ++ map (fun userId => push_request lineToken (Some userId) message)
                userIds,
     Resolved {| SendReminder.statusCode := 200;
                 SendReminder.resp_body := SendReminder.ResultsBody results |})
    /\ length results = length userIds
    /\ map SendReminder.userId results = userIds
    /\ Forall (fun r => SendReminder.status r = "success"
                        \/ SendReminder.status r = "error") results
    /\ forall i r,
         results !! i = Some r ->
         exists recipient reply,
           userIds !! i = Some recipient
           /\ replies !! i = Some reply
           /\ SendReminder.userId r = recipient
           /\ (channel_failed reply ->
               SendReminder.status r = "error"
               /\ SendReminder.error r <> None)
           /\ (~ channel_failed reply ->
               SendReminder.status r = "success"
               /\ SendReminder.error r = None).

End Vocabulary.

(** All three configuration values of the reminder cycle are set. *)
Definition configured (env : CheckReminders.process_env) : Prop :=
  env_truthy (CheckReminders.LINE_CHANNEL_ACCESS_TOKEN env) = true
  /\ env_truthy (CheckReminders.FIREBASE_PROJECT_ID env) = true
  /\ env_truthy (CheckReminders.FIREBASE_WEB_API_KEY env) = true.

(** [pat] occurs in [s] after [before] and in front of [after]. *)
Definition occurs_at (pat s before after : string) : Prop :=
  s = before +:+ pat +:+ after.

(** ... and nowhere earlier. *)
Definition first_occurrence (pat s before after : string) : Prop :=
  occurs_at pat s before after
  /\ forall before' after', occurs_at pat s before' after' ->
       (String.length before <= String.length before')%nat.

(** [r] is [s] with the first occurrence of [pat] replaced by [v], or [s]
    itself when [pat] does not occur. *)
Definition replaces_first (s pat v r : string) : Prop :=
  (r = s /\ forall before after, ~ occurs_at pat s before after)
  \/ exists before after,
       first_occurrence pat s before after /\ r = before +:+ v +:+ after.

(** The text has no dollar sign. *)
Fixpoint dollar_free (v : string) : bool :=
  match v with
  | EmptyString => true
  | String c rest => negb (Ascii.eqb c "$") && dollar_free rest
  end.

End Spec.

(** ** A concrete runtime and concrete records

    Used to run the functions on explicit inputs: numbers are integers, and
    the only date the parser knows is the class of the worked scenarios,
    2024-06-10 10:00 at UTC+9. *)
Module Sample.
Import JS.

Definition runtime : Runtime := {|
  number := Z;
  Number_ToBoolean := fun n => negb (n =? 0);
  Number_equal := Z.eqb;
  Number_ToString := fun n => pretty n;
  Number_of_string := fun _ => 0;
  Date_parse := fun s =>
    if String.eqb s "2024-06-10T10:00:00+09:00" then Some 1717981200000
    else None;
  Date_toISOString := fun t => pretty t
|}.

#[local] Existing Instance runtime.

Definition record (members : list (string * json)) : gmap string json :=
  list_to_map members.

(** A class on 2024-06-10 at 10:00 for the named student. *)
Definition class_of (student_name : string) : gmap string json :=
  record [("type", JStr "schedule"); ("schedule_date", JStr "2024-06-10");
          ("schedule_time", JStr "10:00"); ("student_name", JStr student_name);
          ("subject", JStr "数学"); ("instructor", JStr "佐藤")].

Definition student_of (student_name line : string) : gmap string json :=
  record [("type", JStr "student"); ("student_name", JStr student_name);
          ("student_line_id", JStr line)].

(** A student who never registered a LINE account. *)
Definition student_without_line (student_name : string) : gmap string json :=
  record [("type", JStr "student"); ("student_name", JStr student_name)].

(** 2024-06-09 10:05 at UTC+9: 1435 minutes before the class. *)
Definition day_before : Z := 1717895100000.

(** 2024-06-09 08:00 at UTC+9: 1560 minutes before the class. *)
Definition too_early : Z := 1717887600000.

Definition env : CheckReminders.process_env := {|
  CheckReminders.LINE_CHANNEL_ACCESS_TOKEN := Some "token";
  CheckReminders.FIREBASE_PROJECT_ID := Some "creatte-contactsystem";
  CheckReminders.FIREBASE_WEB_API_KEY := Some "key"
|}.

(** The stored collection: two classes and their two students. *)
Definition stored : CheckReminders.list_documents := {|
  CheckReminders.documents := Some
    [ {| CheckReminders.name := "projects/p/databases/(default)/documents/system_data/c1";
         CheckReminders.fields := Some
           [("type", CheckReminders.StringValue "schedule");
            ("schedule_date", CheckReminders.StringValue "2024-06-10");
            ("schedule_time", CheckReminders.StringValue "10:00");
            ("student_name", CheckReminders.StringValue "花子")] |};
      {| CheckReminders.name := "projects/p/databases/(default)/documents/system_data/c2";
         CheckReminders.fields := Some
           [("type", CheckReminders.StringValue "schedule");
            ("schedule_date", CheckReminders.StringValue "2024-06-10");
            ("schedule_time", CheckReminders.StringValue "10:00");
            ("student_name", CheckReminders.StringValue "太郎")] |};
      {| CheckReminders.name := "projects/p/databases/(default)/documents/system_data/s1";
         CheckReminders.fields := Some
           [("type", CheckReminders.StringValue "student");
            ("student_name", CheckReminders.StringValue "花子");
            ("student_line_id", CheckReminders.StringValue "U1")] |};
      {| CheckReminders.name := "projects/p/databases/(default)/documents/system_data/s2";
         CheckReminders.fields := Some
           [("type", CheckReminders.StringValue "student");
            ("student_name", CheckReminders.StringValue "太郎");
            ("student_line_id", CheckReminders.StringValue "U2")] |} ]
|}.

Definition parse_stored (body : string) : option CheckReminders.list_documents :=
  if String.eqb body "stored" then Some stored else None.

(** Firestore answers with the stored collection and LINE accepts every
    push. *)
Definition net_ok : network := fun _ req =>
  if String.eqb (hostname req) "firestore.googleapis.com"
  then Resolved {| statusCode := 200; data := "stored" |}
  else Resolved {| statusCode := 200; data := "{}" |}.

(** Firestore answers, the connection to LINE is reset on every push. *)
Definition net_line_down : network := fun _ req =>
  if String.eqb (hostname req) "firestore.googleapis.com"
  then Resolved {| statusCode := 200; data := "stored" |}
  else Rejected (Error "read ECONNRESET").

(** Firestore answers, LINE refuses every push with status 401. *)
Definition net_line_refuses : network := fun _ req =>
  if String.eqb (hostname req) "firestore.googleapis.com"
  then Resolved {| statusCode := 200; data := "stored" |}
  else Resolved {| statusCode := 401; data := "{}" |}.

(** The connection to Firestore cannot be opened. *)
Definition net_firestore_down : network := fun _ _ =>
  Rejected (Error "getaddrinfo ENOTFOUND firestore.googleapis.com").

(** Firestore refuses the key with status 403. *)
Definition net_firestore_refuses : network := fun _ _ =>
  Resolved {| statusCode := 403; data := "PERMISSION_DENIED" |}.

(** A class of 花子 on the given subject. *)
Definition class_about (subject : string) : gmap string json :=
  record [("type", JStr "schedule"); ("schedule_date", JStr "2024-06-10");
          ("schedule_time", JStr "10:00"); ("student_name", JStr "花子");
          ("subject", JStr subject)].

(** The class of 花子, marked absent. *)
Definition absent_class : gmap string json :=
  <["attendance" := JStr "欠席"]> (class_of "花子").

(** Stored settings with the 24-hour window enabled and no template. *)
Definition settings_without_template : gmap string json :=
  record [("type", JStr "reminder_settings"); ("remind_24h", JBool true)].

(** The state of the loop before its first turn. *)
Definition start : CheckReminders.cycle :=
  {| CheckReminders.sent := []; CheckReminders.skipped := [] |}.

(** A broadcast to three recipients. *)
Definition broadcast : SendReminder.event := {|
  SendReminder.httpMethod := "POST";
  SendReminder.body := Some "broadcast"
|}.

Definition parse_broadcast (body : string) : option json :=
  if String.eqb body "broadcast" then
    Some (JObj [("userIds", JArr [JStr "U1"; JStr "U2"; JStr "U3"]);
                ("message", JStr "明日は休講です")])
  else None.

(** LINE accepts every push but the one to U2, whose connection hangs up. *)
Definition net_one_down : network := fun _ req =>
  match written req with
  | Some {| to := Some (JStr recipient) |} =>
      if String.eqb recipient "U2" then Rejected (Error "socket hang up")
      else Resolved {| statusCode := 200; data := "{}" |}
  | _ => Resolved {| statusCode := 200; data := "{}" |}
  end.

End Sample.

(** ** The LINE webhook, served at [/.netlify/functions/webhook] *)
Module Webhook.
Import JS.

Section Functions.
Context `{Runtime}.

(** [crypto.createHmac('SHA256', secret).update(body).digest('base64')],
    the digest of the body under the channel secret; it is computed by
    the runtime. *)
Variable hmac_sha256_base64 : string -> string -> string.

(** [JSON.parse] on the body of the event; [None] when it throws. *)
Variable JSON_parse : string -> option json.

(** The body written to a reply request, before [JSON.stringify]:
    [{ replyToken, messages: [{ type: 'text', text }] }]. *)
Record reply_body := {
  replyToken : option json;
  text : string
}.

Record reply_request := {
  hostname : string;
  path : string;
  method : string;
  content_type : string;
  authorization : string;
  written : reply_body
}.

(** The remote side and the computations over it, as in [JS] but for
    reply requests. *)
Definition network : Type :=
  list reply_request -> reply_request -> outcome http_response.

Definition io (A : Type) : Type :=
  list reply_request -> list reply_request * outcome A.

Definition ret {A} (a : A) : io A := fun log => (log, Resolved a).

Definition bind {A B} (m : io A) (k : A -> io B) : io B :=
  fun log =>
    match m log with
    | (log', Resolved a) => k a log'
    | (log', Rejected e) => (log', Rejected e)
    end.

Definition throw {A} (e : error) : io A := fun log => (log, Rejected e).

(** [try { await m } catch (err) { console.error(...) }]. *)
Definition swallow (m : io unit) : io unit :=
  fun log =>
    match m log with
    | (log', Resolved a) => (log', Resolved a)
    | (log', Rejected _) => (log', Resolved tt)
    end.

Fixpoint for_each {A} (body : A -> io unit) (xs : list A) : io unit :=
  match xs with
  | [] => ret tt
  | x :: rest => bind (body x) (fun _ => for_each body rest)
  end.

Variable net : network.

(** The fields of the Netlify event the handler reads. *)
Record event := {
  httpMethod : string;
  headers : gmap string string;
  body : option string
}.

(** The object serialised into the body of the response. *)
Inductive response_body : Type :=
| ErrorBody (error : string)
| StatusBody (status : string).

Record response := {
  statusCode : Z;
  resp_body : response_body
}.

(** [verifySignature]: a missing or empty signature is refused before
    anything is hashed; hashing a [null] body throws. *)
Definition verifySignature (channelSecret : string) (body : option string)
    (signature : option string) : outcome bool :=
  if negb (env_truthy signature) then Resolved false
  else
    match body with
    | None => Rejected (TypeError "The data argument must be a string")
    | Some text =>
        Resolved (String.eqb (hmac_sha256_base64 channelSecret text)
                             (env_string signature))
    end.

(** [replyMessage]: resolves with the body of the answer whatever its
    status is, rejects when the request emits [error]. *)
Definition replyMessage (replyToken : option json) (text accessToken : string)
  : io string :=
  fun log =>
    let req :=
      {| hostname := "api.line.me"; path := "/v2/bot/message/reply";
         method := "POST"; content_type := "application/json";
         authorization := "Bearer " +:+ accessToken;
         written := {| replyToken := replyToken; text := text |} |} in
    (log ++ [req],
     match net log req with
     | Resolved res => Resolved (data res)
     | Rejected e => Rejected e
     end).

(** [a?.k]. *)
Definition optional_property (a : option json) (k : string) : option json :=
  match a with
  | None | Some JNull => None
  | Some v => SendReminder.property v k
  end.

(** [text.includes(needle)]: a substring test on a string, a membership
    test on an array; no other value has a callable [includes]. *)
Definition includes (text : option json) (needle : string) : outcome bool :=
  match text with
  | Some (JStr s) =>
      Resolved (match split_first needle s with
                | Some _ => true
                | None => false
                end)
  | Some (JArr items) =>
      Resolved (existsb (fun x => strict_eq (Some x) (Some (JStr needle)))
                        items)
  | _ => Rejected (TypeError "text.includes is not a function")
  end.

(** [a || b] on two tests of which the first may throw; the second is
    evaluated only when the first is false. *)
Definition or_else (a b : outcome bool) : outcome bool :=
  match a with
  | Resolved true => Resolved true
  | Resolved false => b
  | Rejected e => Rejected e
  end.

Definition class_notice : string :=
  "授業のご確認はシステムからご連絡いたします。お問い合わせは教室にご連絡ください。".

Definition absence_notice : string :=
  "欠席のご連絡をありがとうございます。授業の振替については別途ご連絡いたします。".

Definition test_notice : string :=
  "✅ LINEシステム接続テスト成功！リマインドシステムが正常に動作しています。".

Definition default_notice : string :=
  "メッセージを受け取りました。お問い合わせは教室にご連絡ください。".

Definition welcome_notice : string :=
  "ご登録ありがとうございます！授業のリマインドをLINEでお届けします。"
  +:+ LF +:+ LF +:+ "📚 授業の前日と3時間前にお知らせします。".

(** The chain of [if]s that chooses [replyText]. *)
Definition replyText_for (text : option json) : outcome string :=
  match or_else (includes text "授業") (includes text "スケジュール") with
  | Rejected e => Rejected e
  | Resolved true => Resolved class_notice
  | Resolved false =>
      match or_else (includes text "欠席") (includes text "休む") with
      | Rejected e => Rejected e
      | Resolved true => Resolved absence_notice
      | Resolved false =>
          if strict_eq text (Some (JStr "テスト"))
             || strict_eq text (Some (JStr "test"))
          then Resolved test_notice
          else Resolved default_notice
      end
  end.

(** [handleLineEvent]; destructuring [null] throws. *)
Definition handleLineEvent (lineEvent : json) (accessToken : string) : io unit :=
  match lineEvent with
  | JNull => throw (TypeError "Cannot destructure null")
  | _ =>
      let type := SendReminder.property lineEvent "type" in
      let replyToken := SendReminder.property lineEvent "replyToken" in
      let message := SendReminder.property lineEvent "message" in
      bind
        (if strict_eq type (Some (JStr "message"))
            && strict_eq (optional_property message "type")
                         (Some (JStr "text"))
         then
           match replyText_for (optional_property message "text") with
           | Rejected e => throw e
           | Resolved replyText =>
               if truthy (js_and replyToken (Some (JStr replyText)))
               then bind (replyMessage replyToken replyText accessToken)
                         (fun _ => ret tt)
               else ret tt
           end
         else ret tt)
        (fun _ =>
           if strict_eq type (Some (JStr "follow"))
           then
             if truthy replyToken
             then bind (replyMessage replyToken welcome_notice accessToken)
                       (fun _ => ret tt)
             else ret tt
           else ret tt)
  end.

(** The bytes of a text, one string each. *)
Fixpoint characters (s : string) : list json :=
  match s with
  | EmptyString => []
  | String c rest => JStr (String c EmptyString) :: characters rest
  end.

(** What [for (const lineEvent of events)] iterates over: the items of
    an array; the characters of a string, which are strings; any other
    value is not iterable. *)
Definition iterate (events : option json) : outcome (list json) :=
  match events with
  | Some (JArr items) => Resolved items
  | Some (JStr s) => Resolved (characters s)
  | _ => Rejected (TypeError "events is not iterable")
  end.

Record process_env := {
  LINE_CHANNEL_SECRET : option string;
  LINE_CHANNEL_ACCESS_TOKEN : option string
}.

(** [exports.handler]. *)
Definition handler (env : process_env) (ev : event) : io response :=
  if negb (String.eqb (httpMethod ev) "POST") then
    ret {| statusCode := 405; resp_body := ErrorBody "Method Not Allowed" |}
  else
    let channelSecret := LINE_CHANNEL_SECRET env in
    let accessToken := LINE_CHANNEL_ACCESS_TOKEN env in
    if negb (env_truthy channelSecret) || negb (env_truthy accessToken) then
      ret {| statusCode := 500;
             resp_body := ErrorBody "Server configuration error" |}
    else
      let signature := headers ev !! "x-line-signature" in
      match verifySignature (env_string channelSecret) (body ev) signature with
      | Rejected e => throw e
      | Resolved false =>
          ret {| statusCode := 401;
                 resp_body := ErrorBody "Invalid signature" |}
      | Resolved true =>
          match JSON_parse (match body ev with
                            | Some s => s
                            | None => "null"
                            end) with
          | None =>
              ret {| statusCode := 400;
                     resp_body := ErrorBody "Invalid JSON" |}
          | Some JNull => throw (TypeError "Cannot read properties of null")
          | Some webhookData =>
              match iterate (js_or (SendReminder.property webhookData "events")
                                   (Some (JArr []))) with
              | Rejected e => throw e
              | Resolved events =>
                  bind (for_each
                          (fun lineEvent =>
                             swallow (handleLineEvent lineEvent
                                        (env_string accessToken)))
                          events)
                       (fun _ =>
                          ret {| statusCode := 200;
                                 resp_body := StatusBody "ok" |})
              end
          end
      end.

End Functions.

End Webhook.

(** ** Notions used by the further properties *)
Module Notions.
Import JS.

(** The text has a slash. *)
Fixpoint has_slash (s : string) : bool :=
  match s with
  | EmptyString => false
  | String c rest => Ascii.eqb c "/" || has_slash rest
  end.

Section Cycle.
Context `{Runtime}.

(** The typed fields of a document, none when the document has none. *)
Definition fields_of (doc : CheckReminders.firestore_document)
  : list (string * CheckReminders.firestore_value) :=
  default [] (CheckReminders.fields doc).

(** A schedule the cycle pushes a reminder for: eligible, with a due
    window and a recipient. *)
Definition reminded (settings : gmap string json)
    (students : list (gmap string json)) (now : Z)
    (schedule : gmap string json) : bool :=
  Spec.eligible schedule && Spec.some_window_due settings now schedule
  && Spec.has_recipient students schedule.

(** An eligible schedule outside every enabled band. *)
Definition mistimed (settings : gmap string json) (now : Z)
    (schedule : gmap string json) : bool :=
  Spec.eligible schedule && negb (Spec.some_window_due settings now schedule).

(** What the cycle reports of a reminded schedule besides the status of
    the channel: the student and the label of the window. *)
Definition reminder_of (settings : gmap string json) (now : Z)
    (schedule : gmap string json) : option json * string :=
  (schedule !! "student_name",
   CheckReminders.label_of settings (CheckReminders.diffMin schedule now)).

(** What the cycle records of a mistimed schedule. *)
Definition skip_of (now : Z) (schedule : gmap string json)
  : CheckReminders.skipped_entry :=
  {| CheckReminders.skipped_student := schedule !! "student_name";
     CheckReminders.skipped_diffMin := CheckReminders.diffMin schedule now |}.

(** The push the cycle issues for a reminded schedule whose body renders
    to [body]. *)
Definition reminder_request (settings : gmap string json)
    (students : list (gmap string json)) (now : Z) (lineToken : string)
    (schedule : gmap string json) (body : string) : http_request :=
  Spec.push_request lineToken
    (CheckReminders.line_id (CheckReminders.find_student students schedule))
    (Some (JStr (CheckReminders.banner
                   (CheckReminders.label_of settings
                      (CheckReminders.diffMin schedule now)) body))).

(** The flat records of a parsed listing, and what the handler takes
    from them: the schedules, the students and the settings in force. *)
Definition records_of (parsed : CheckReminders.list_documents)
  : list (gmap string json) :=
  map CheckReminders.parseFirestoreDoc
      (default [] (CheckReminders.documents parsed)).

Definition schedules_of (records : list (gmap string json))
  : list (gmap string json) :=
  List.filter (CheckReminders.has_type "schedule") records.

Definition students_of (records : list (gmap string json))
  : list (gmap string json) :=
  List.filter (CheckReminders.has_type "student") records.

Definition settings_of (records : list (gmap string json))
  : gmap string json :=
  match List.find (CheckReminders.has_type "reminder_settings") records with
  | Some found => found
  | None => CheckReminders.default_settings
  end.

(** The listing the handler asks the Data Source for. *)
Definition listing (env : CheckReminders.process_env) : http_request :=
  Spec.list_request
    (env_string (CheckReminders.FIREBASE_PROJECT_ID env))
    (env_string (CheckReminders.FIREBASE_WEB_API_KEY env)) "system_data".

End Cycle.

(** [needle] occurs somewhere in [s]. *)
Definition mentions (s needle : string) : Prop :=
  exists before after, Spec.occurs_at needle s before after.

(** The four notices the webhook answers a text message with. *)
Definition notices : list string :=
  [Webhook.class_notice; Webhook.absence_notice; Webhook.test_notice;
   Webhook.default_notice].

Section Replies.
Context `{Runtime}.

(** The reply of the webhook with [text] under the reply token of an
    event. *)
Definition reply_to (accessToken : string) (replyToken : option json)
    (text : string) : Webhook.reply_request :=
  {| Webhook.hostname := "api.line.me";
     Webhook.path := "/v2/bot/message/reply";
     Webhook.method := "POST";
     Webhook.content_type := "application/json";
     Webhook.authorization := "Bearer " +:+ accessToken;
     Webhook.written := {| Webhook.replyToken := replyToken;
                           Webhook.text := text |} |}.

(** A webhook call that passes the checks in front of the events: a POST
    with both secrets configured, signed with the digest of its body,
    whose body parses to [parsed]. *)
Definition accepted (hmac_sha256_base64 : string -> string -> string)
    (JSON_parse : string -> option json) (env : Webhook.process_env)
    (ev : Webhook.event) (parsed : json) : Prop :=
  Webhook.httpMethod ev = "POST"
  /\ env_truthy (Webhook.LINE_CHANNEL_SECRET env) = true
  /\ env_truthy (Webhook.LINE_CHANNEL_ACCESS_TOKEN env) = true
  /\ exists text signature,
       Webhook.body ev = Some text
       /\ Webhook.headers ev !! "x-line-signature" = Some signature
       /\ signature <> EmptyString
       /\ hmac_sha256_base64
            (env_string (Webhook.LINE_CHANNEL_SECRET env)) text = signature
       /\ JSON_parse text = Some parsed.

End Replies.

End Notions.

(** ** Further concrete inputs *)
Module Cases.
Import JS.

#[local] Existing Instance Sample.runtime.

(** One hour before the class of the worked scenarios. *)
Definition hour_before : Z := 1717977600000.

(** A stored schedule without a student name, and one whose date was
    stored as a timestamp. *)
Definition nameless : CheckReminders.firestore_document := {|
  CheckReminders.name := "projects/p/databases/(default)/documents/system_data/c9";
  CheckReminders.fields := Some
    [("type", CheckReminders.StringValue "schedule");
     ("schedule_date", CheckReminders.StringValue "2024-06-10");
     ("schedule_time", CheckReminders.StringValue "10:00");
     ("__backendId", CheckReminders.StringValue "stale")]
|}.

(** Settings whose template was stored as a number. *)
Definition settings_with_number : gmap string json :=
  Sample.record [("type", JStr "reminder_settings");
                 ("remind_24h", JBool true); ("template_24h", JNum 5)].

(** An environment without the Firebase key. *)
Definition env_without_key : CheckReminders.process_env := {|
  CheckReminders.LINE_CHANNEL_ACCESS_TOKEN := Some "token";
  CheckReminders.FIREBASE_PROJECT_ID := Some "creatte-contactsystem";
  CheckReminders.FIREBASE_WEB_API_KEY := None
|}.

(** Firestore answers 200 with a page that is not JSON. *)
Definition net_garbled : network := fun _ _ =>
  Resolved {| statusCode := 200; data := "<html>" |}.

(** The students of the worked scenarios, and its two classes. *)
Definition students : list (gmap string json) :=
  [Sample.student_of "花子" "U1"; Sample.student_of "太郎" "U2"].

Definition classes : list (gmap string json) :=
  [Sample.class_of "花子"; Sample.absent_class; Sample.class_of "太郎"].

(** LINE accepts the push to U1 and refuses the one to U2 with 401. *)
Definition net_refuses_second : network := fun _ req =>
  match written req with
  | Some {| to := Some (JStr recipient) |} =>
      if String.eqb recipient "U2"
      then Resolved {| statusCode := 401; data := "{}" |}
      else Resolved {| statusCode := 200; data := "{}" |}
  | _ => Resolved {| statusCode := 200; data := "{}" |}
  end.

(** The two entries the cycle records under [net_refuses_second]. *)
Definition recorded : CheckReminders.cycle := {|
  CheckReminders.sent :=
    [ {| CheckReminders.student := Some (JStr "花子");
         CheckReminders.label := "24時間前";
         CheckReminders.lineStatus := 200 |};
      {| CheckReminders.student := Some (JStr "太郎");
         CheckReminders.label := "24時間前";
         CheckReminders.lineStatus := 401 |} ];
  CheckReminders.skipped := []
|}.

(** Broadcast events: a GET, and POSTs with the bodies named after what
    they parse to. *)
Definition post (text : string) : SendReminder.event := {|
  SendReminder.httpMethod := "POST";
  SendReminder.body := Some text
|}.

Definition parse_body (text : string) : option json :=
  if String.eqb text "null" then Some JNull
  else if String.eqb text "nobody" then
    Some (JObj [("userIds", JArr []); ("message", JStr "お知らせ")])
  else if String.eqb text "no message" then
    Some (JObj [("userIds", JArr [JStr "U1"])])
  else None.

(** A stand-in for the keyed digest of the webhook. *)
Definition digest (secret text : string) : string :=
  secret +:+ ":" +:+ text.

Definition hook_env : Webhook.process_env := {|
  Webhook.LINE_CHANNEL_SECRET := Some "secret";
  Webhook.LINE_CHANNEL_ACCESS_TOKEN := Some "token"
|}.

(** A text message that mentions both a class and an absence, a follow,
    and an unsend event. *)
Definition text_event : json :=
  JObj [("type", JStr "message"); ("replyToken", JStr "r1");
        ("message", JObj [("type", JStr "text");
                          ("text", JStr "明日の授業を欠席します")])].

Definition follow_event : json :=
  JObj [("type", JStr "follow"); ("replyToken", JStr "r2")].

Definition unsend_event : json :=
  JObj [("type", JStr "unsend")].

Definition delivery : json :=
  JObj [("events", JArr [text_event; JNull; follow_event])].

Definition parse_hook (text : string) : option json :=
  if String.eqb text "delivery" then Some delivery
  else if String.eqb text "null" then Some JNull
  else None.

(** A call signed with the digest of its body. *)
Definition signed (text : string) : Webhook.event := {|
  Webhook.httpMethod := "POST";
  Webhook.headers := {[ "x-line-signature" := digest "secret" text ]};
  Webhook.body := Some text
|}.

(** The same call with a forged signature. *)
Definition forged (text : string) : Webhook.event := {|
  Webhook.httpMethod := "POST";
  Webhook.headers := {[ "x-line-signature" := "forged" ]};
  Webhook.body := Some text
|}.

(** LINE accepts every reply; LINE is unreachable. *)
Definition hook_net_ok : Webhook.network := fun _ _ =>
  Resolved {| statusCode := 200; data := "{}" |}.

Definition hook_net_down : Webhook.network := fun _ _ =>
  Rejected (Error "connect ETIMEDOUT").

End Cases.

(** Closes an equation between closed terms by evaluating both sides. *)
Ltac evaluate :=
  lazymatch goal with
  | |- ?l = ?r => exact (@eq_refl _ r <: l = r)
  end.

(** * Properties of the reminder cycle *)
Module ReminderCycle.
Import JS CheckReminders.

Section WindowMatcher.
Context `{Runtime}.

Lemma js_and_band (flag : option json) (lo hi : bool) :
  truthy (js_and (js_and flag (Some (JBool lo))) (Some (JBool hi)))
  = truthy flag && (lo && hi).
Proof.
  unfold js_and. destruct (truthy flag) eqn:Hflag; simpl.
  - destruct lo; reflexivity.
  - rewrite Hflag. exact Hflag.
Qed.

(** Each predicate of the handler is the specification's [due]. *)
Lemma predicate_is_due settings d w :
  truthy (Spec.predicate_of settings d w) = Spec.due settings d w.
Proof.
  destruct w; simpl; unfold is24h, is3h, is1h; rewrite js_and_band;
    unfold Spec.due; simpl; f_equal; destruct d; reflexivity.
Qed.

Lemma within_band_iff w d :
  Spec.within_band w d = true <->
  exists m, d = Some m /\ Spec.offset w - 15 <= m <= Spec.offset w + 15.
Proof.
  unfold Spec.within_band, Spec.tolerance. destruct d as [m|].
  - rewrite andb_true_iff, !Z.leb_le. split.
    + intros Hm. exists m. split; [reflexivity | lia].
    + intros (m' & Hm' & Hb). injection Hm' as ->. lia.
  - split; [discriminate | intros (m & Hm & _); discriminate].
Qed.

(** The bands of two different windows share no minute. *)
Lemma bands_disjoint w1 w2 d :
  Spec.within_band w1 d = true -> Spec.within_band w2 d = true -> w1 = w2.
Proof.
  rewrite !within_band_iff. intros (m & -> & H1) (m' & Hm & H2).
  injection Hm as <-.
  destruct w1, w2; simpl in *; first [reflexivity | lia].
Qed.

(** The guard in front of [skipped.push] is [matchWindow] finding nothing. *)
Lemma no_window_iff settings d :
  negb (truthy (is24h settings d)) && negb (truthy (is3h settings d))
  && negb (truthy (is1h settings d)) = true
  <-> Spec.matchWindow settings d = None.
Proof.
  pose proof (predicate_is_due settings d Spec.TwentyFourHour) as H24.
  pose proof (predicate_is_due settings d Spec.ThreeHour) as H3.
  pose proof (predicate_is_due settings d Spec.OneHour) as H1.
  simpl in H24, H3, H1. rewrite H24, H3, H1.
  unfold Spec.matchWindow, Spec.priority_order. simpl.
  destruct (Spec.due settings d Spec.TwentyFourHour),
           (Spec.due settings d Spec.ThreeHour),
           (Spec.due settings d Spec.OneHour); simpl; split; congruence.
Qed.

Lemma due_iff settings d w :
  truthy (Spec.predicate_of settings d w) = true <->
  Spec.enabled settings w = true
  /\ exists m, d = Some m /\ Spec.offset w - 15 <= m <= Spec.offset w + 15.
Proof.
  rewrite predicate_is_due. unfold Spec.due.
  rewrite andb_true_iff, within_band_iff. reflexivity.
Qed.

(** C3. At most one of the three window predicates holds, whatever the
    difference and the enabled flags are; and when [matchWindow] finds a
    window, the first due one in the order 24h, 3h, 1h, the handler's label
    is the label of that window. *)
Theorem windows_mutually_exclusive settings d :
  (forall w1 w2,
     truthy (Spec.predicate_of settings d w1) = true ->
     truthy (Spec.predicate_of settings d w2) = true -> w1 = w2)
  /\ (forall w,
       Spec.matchWindow settings d = Some w ->
       truthy (Spec.predicate_of settings d w) = true
       /\ label_of settings d = Spec.window_label w).
Proof.
  split.
  - intros w1 w2. rewrite !predicate_is_due. unfold Spec.due.
    intros [_ H1]%andb_true_iff [_ H2]%andb_true_iff.
    exact (bands_disjoint w1 w2 d H1 H2).
  - intros w Hw. split.
    + rewrite predicate_is_due. unfold Spec.matchWindow in Hw.
      apply List.find_some in Hw. tauto.
    + unfold label_of.
      pose proof (predicate_is_due settings d Spec.TwentyFourHour) as H24.
      pose proof (predicate_is_due settings d Spec.ThreeHour) as H3.
      simpl in H24, H3. rewrite H24, H3.
      unfold Spec.matchWindow, Spec.priority_order in Hw. simpl in Hw.
      destruct (Spec.due settings d Spec.TwentyFourHour);
        [injection Hw as <-; reflexivity|].
      destruct (Spec.due settings d Spec.ThreeHour);
        [injection Hw as <-; reflexivity|].
      destruct (Spec.due settings d Spec.OneHour);
        [injection Hw as <-; reflexivity | discriminate].
Qed.

End WindowMatcher.

Section Loop.
Context `{Runtime}.
Variable net : network.
Variable settings : gmap string json.
Variable students : list (gmap string json).
Variable now : Z.
Variable lineToken : string.

#[local] Abbreviation turn := (iteration net settings students now lineToken).

(** *** The four ways a turn of the loop ends without a push *)

Lemma turn_missing_field st schedule log :
  missing_field schedule = true -> turn st schedule log = (log, Resolved st).
Proof. intros Hm. unfold iteration. rewrite Hm. reflexivity. Qed.

Lemma turn_attended st schedule log :
  attended schedule = true -> turn st schedule log = (log, Resolved st).
Proof.
  intros Ha. unfold iteration. rewrite Ha.
  destruct (missing_field schedule); reflexivity.
Qed.

Lemma eligible_guards schedule :
  Spec.eligible schedule = true ->
  missing_field schedule = false /\ attended schedule = false.
Proof.
  unfold Spec.eligible. rewrite andb_true_iff, !negb_true_iff. tauto.
Qed.

Lemma turn_no_window st schedule log :
  Spec.eligible schedule = true ->
  Spec.some_window_due settings now schedule = false ->
  turn st schedule log =
  (log, Resolved {| sent := sent st;
                    skipped := skipped st ++
                      [{| skipped_student := schedule !! "student_name";
                          skipped_diffMin := diffMin schedule now |}] |}).
Proof.
  intros [Hm Ha]%eligible_guards Hdue. unfold iteration. rewrite Hm, Ha.
  unfold Spec.some_window_due in Hdue.
  apply orb_false_iff in Hdue as [[H24 H3]%orb_false_iff H1].
  rewrite H24, H3, H1. reflexivity.
Qed.

Lemma turn_without_recipient st schedule log :
  Spec.eligible schedule = true ->
  Spec.some_window_due settings now schedule = true ->
  Spec.has_recipient students schedule = false ->
  turn st schedule log = (log, Resolved st).
Proof.
  intros [Hm Ha]%eligible_guards Hdue Hrec. unfold iteration.
  rewrite Hm, Ha. unfold Spec.some_window_due in Hdue.
  unfold Spec.has_recipient in Hrec. rewrite Hrec.
  destruct (truthy (is24h settings (diffMin schedule now))),
           (truthy (is3h settings (diffMin schedule now))),
           (truthy (is1h settings (diffMin schedule now)));
    simpl in *; first [reflexivity | discriminate].
Qed.

(** *** The two ways a turn ends after the recipient is resolved *)

Lemma pushLine_run userId text log :
  let req := Spec.push_request lineToken userId (Some (JStr text)) in
  pushLine net userId text lineToken log =
  (log ++ [req],
   match net log req with
   | Resolved res => Resolved {| status := JS.statusCode res;
                                 res_body := data res |}
   | Rejected e => Rejected e
   end).
Proof.
  unfold pushLine, request, io_bind, https_request, Spec.push_request. simpl.
  destruct (net log _); reflexivity.
Qed.

Lemma turn_push st schedule log body :
  Spec.eligible schedule = true ->
  Spec.some_window_due settings now schedule = true ->
  Spec.has_recipient students schedule = true ->
  messageBody settings schedule = Resolved body ->
  let recipient := line_id (find_student students schedule) in
  let label := label_of settings (diffMin schedule now) in
  let req := Spec.push_request lineToken recipient
               (Some (JStr (banner label body))) in
  turn st schedule log =
  (log ++ [req],
   match net log req with
   | Resolved res =>
       Resolved {| sent := sent st ++
                     [{| student := schedule !! "student_name";
                         label := label; lineStatus := JS.statusCode res |}];
                   skipped := skipped st |}
   | Rejected e => Rejected e
   end).
Proof.
  intros [Hm Ha]%eligible_guards Hdue Hrec Hbody. simpl.
  unfold iteration. rewrite Hm, Ha. unfold Spec.some_window_due in Hdue.
  unfold Spec.has_recipient in Hrec. rewrite Hrec, Hbody.
  replace (negb (truthy (is24h settings (diffMin schedule now)))
           && negb (truthy (is3h settings (diffMin schedule now)))
           && negb (truthy (is1h settings (diffMin schedule now))))
    with false.
  2:{ destruct (truthy (is24h settings (diffMin schedule now))),
               (truthy (is3h settings (diffMin schedule now))),
               (truthy (is1h settings (diffMin schedule now)));
        simpl in *; first [reflexivity | discriminate]. }
  simpl. unfold io_bind. rewrite pushLine_run.
  destruct (net log _); reflexivity.
Qed.

Lemma turn_template_error st schedule log e :
  Spec.eligible schedule = true ->
  Spec.some_window_due settings now schedule = true ->
  Spec.has_recipient students schedule = true ->
  messageBody settings schedule = Rejected e ->
  turn st schedule log = (log, Rejected e).
Proof.
  intros [Hm Ha]%eligible_guards Hdue Hrec Hbody.
  unfold iteration. rewrite Hm, Ha. unfold Spec.some_window_due in Hdue.
  unfold Spec.has_recipient in Hrec. rewrite Hrec, Hbody.
  destruct (truthy (is24h settings (diffMin schedule now))),
           (truthy (is3h settings (diffMin schedule now))),
           (truthy (is1h settings (diffMin schedule now)));
    simpl in *; first [reflexivity | discriminate].
Qed.

Lemma some_window_due_match schedule :
  Spec.some_window_due settings now schedule = false <->
  Spec.matchWindow settings (diffMin schedule now) = None.
Proof.
  rewrite <- no_window_iff. unfold Spec.some_window_due.
  destruct (truthy (is24h settings (diffMin schedule now))),
           (truthy (is3h settings (diffMin schedule now))),
           (truthy (is1h settings (diffMin schedule now)));
    simpl; split; congruence.
Qed.

(** *** The loop as a whole *)

Lemma for_of_app {A S} (f : S -> A -> io S) xs ys st log :
  for_of f (xs ++ ys) st log = io_bind (for_of f xs st) (for_of f ys) log.
Proof.
  revert st log. induction xs as [|x xs IH]; intros st log; simpl.
  - reflexivity.
  - unfold io_bind. destruct (f st x log) as [log' [st'|e]].
    + rewrite IH. reflexivity.
    + reflexivity.
Qed.

Lemma falsy_when_empty_or_missing v :
  Spec.empty_or_missing v -> truthy v = false.
Proof. intros [-> | ->]; reflexivity. Qed.

Lemma excluded_guards schedule :
  Spec.excluded schedule ->
  missing_field schedule = true \/ attended schedule = true.
Proof.
  unfold Spec.excluded, missing_field, attended.
  intros [Ha | [Ha | [Hf | [Hf | Hf]]]].
  - right. rewrite Ha. reflexivity.
  - right. rewrite Ha. reflexivity.
  - left. rewrite (falsy_when_empty_or_missing _ Hf). reflexivity.
  - left. rewrite (falsy_when_empty_or_missing _ Hf).
    apply orb_true_iff. left. apply orb_true_r.
  - left. rewrite (falsy_when_empty_or_missing _ Hf). apply orb_true_r.
Qed.

Lemma turn_excluded st schedule log :
  Spec.excluded schedule -> turn st schedule log = (log, Resolved st).
Proof.
  intros [Hm | Ha]%excluded_guards;
    [apply turn_missing_field | apply turn_attended]; assumption.
Qed.

(** C1. With a window enabled, its predicate holds exactly when
    [diffMin], the floor of the minutes from now to the class, lies in the
    closed band of the window: [1425, 1455] for 24 hours, [165, 195] for
    3 hours, [45, 75] for 1 hour.  An eligible schedule outside every
    enabled band is recorded as skipped, with its student and its
    difference, and nothing is sent for it; inside a band it is not. *)
Theorem window_due_exactly_in_band schedule :
  let d := diffMin schedule now in
  (forall t, classTime schedule = Some t ->
     exists m, d = Some m /\ 60000 * m <= t - now < 60000 * m + 60000)
  /\ (truthy (settings !! "remind_24h") = true ->
      (truthy (is24h settings d) = true <->
       exists m, d = Some m /\ 1425 <= m <= 1455))
  /\ (truthy (settings !! "remind_3h") = true ->
      (truthy (is3h settings d) = true <->
       exists m, d = Some m /\ 165 <= m <= 195))
  /\ (truthy (settings !! "remind_1h") = true ->
      (truthy (is1h settings d) = true <->
       exists m, d = Some m /\ 45 <= m <= 75))
  /\ (forall st log,
       Spec.eligible schedule = true ->
       Spec.matchWindow settings d = None ->
       turn st schedule log =
       (log, Resolved {| sent := sent st;
                         skipped := skipped st ++
                           [{| skipped_student := schedule !! "student_name";
                               skipped_diffMin := d |}] |}))
  /\ (forall st log w,
       Spec.eligible schedule = true ->
       Spec.matchWindow settings d = Some w ->
       exists log' settled,
         turn st schedule log = (log', settled)
         /\ forall st', settled = Resolved st' -> skipped st' = skipped st).
Proof.
  intros d. repeat split.
  - intros t Ht. subst d. unfold diffMin. rewrite Ht.
    exists ((t - now) / 60000). split; [reflexivity|].
    pose proof (Z.div_mod (t - now) 60000 ltac:(lia)) as Hdm.
    pose proof (Z.mod_pos_bound (t - now) 60000 ltac:(lia)) as Hb.
    lia.
  - intros Hdue.
    apply (due_iff settings d Spec.TwentyFourHour) in Hdue. tauto.
  - intros Hband. apply (due_iff settings d Spec.TwentyFourHour).
    split; assumption.
  - intros Hdue. apply (due_iff settings d Spec.ThreeHour) in Hdue. tauto.
  - intros Hband. apply (due_iff settings d Spec.ThreeHour).
    split; assumption.
  - intros Hdue. apply (due_iff settings d Spec.OneHour) in Hdue. tauto.
  - intros Hband. apply (due_iff settings d Spec.OneHour).
    split; assumption.
  - intros st log Hel Hnone. apply turn_no_window; [assumption|].
    apply some_window_due_match. exact Hnone.
  - intros st log w Hel Hsome.
    assert (Spec.some_window_due settings now schedule = true) as Hdue.
    { destruct (Spec.some_window_due settings now schedule) eqn:Hd;
        [reflexivity|].
      apply some_window_due_match in Hd. fold d in Hd. congruence. }
    destruct (Spec.has_recipient students schedule) eqn:Hrec.
    + destruct (messageBody settings schedule) as [body|e] eqn:Hbody.
      * rewrite (turn_push st schedule log body Hel Hdue Hrec Hbody).
        eexists _, _. split; [reflexivity|].
        intros st' Hst'. destruct (net log _); [|discriminate].
        injection Hst' as <-. reflexivity.
      * rewrite (turn_template_error st schedule log e Hel Hdue Hrec Hbody).
        eexists _, _. split; [reflexivity|]. discriminate.
    + rewrite (turn_without_recipient st schedule log Hel Hdue Hrec).
      eexists _, _. split; [reflexivity|].
      intros st' [= <-]. reflexivity.
Qed.

(** C4. A schedule whose attendance is 完了 or 欠席, or whose date, time
    or student name is empty or missing, leaves both lists and the
    requests issued as they were: its turn of the loop ends before the
    difference to the class is computed, and a cycle over records that
    include it ends exactly as the cycle over the records without it. *)
Theorem excluded_schedule_leaves_no_trace schedule :
  Spec.excluded schedule ->
  (forall st log, turn st schedule log = (log, Resolved st))
  /\ (forall before after st log,
       for_of turn (before ++ schedule :: after) st log =
       for_of turn (before ++ after) st log).
Proof.
  intros Hex. split.
  - intros st log. apply turn_excluded, Hex.
  - intros before after st log. rewrite !for_of_app. unfold io_bind.
    destruct (for_of turn before st log) as [log' [st'|e]];
      [|reflexivity].
    simpl. unfold io_bind. rewrite (turn_excluded st' schedule log' Hex).
    reflexivity.
Qed.

Lemma find_student_none schedule :
  Forall (fun s : gmap string json =>
            strict_eq (s !! "student_name") (schedule !! "student_name")
            = false) students ->
  find_student students schedule = None.
Proof.
  unfold find_student. induction 1 as [|s rest Hs _ IH]; simpl.
  - reflexivity.
  - rewrite Hs. exact IH.
Qed.

Lemma turn_without_push st schedule log :
  Spec.has_recipient students schedule = false ->
  exists st', turn st schedule log = (log, Resolved st')
              /\ sent st' = sent st.
Proof.
  intros Hrec. destruct (Spec.eligible schedule) eqn:Hel.
  - destruct (Spec.some_window_due settings now schedule) eqn:Hdue.
    + rewrite (turn_without_recipient st schedule log Hel Hdue Hrec).
      eexists. split; reflexivity.
    + rewrite (turn_no_window st schedule log Hel Hdue).
      eexists. split; reflexivity.
  - unfold Spec.eligible in Hel. apply andb_false_iff in Hel.
    rewrite !negb_false_iff in Hel. destruct Hel as [Hm | Ha].
    + rewrite (turn_missing_field st schedule log Hm).
      eexists. split; reflexivity.
    + rewrite (turn_attended st schedule log Ha).
      eexists. split; reflexivity.
Qed.

(** C5. When no student record carries the student name of the schedule,
    or the record found carries no recipient identifier, the turn of the
    schedule issues no request: the log of requests is unchanged, nothing
    is added to [sent], and the turn resolves instead of throwing. *)
Theorem no_recipient_no_push schedule st log :
  Forall (fun s : gmap string json =>
            strict_eq (s !! "student_name") (schedule !! "student_name")
            = false) students
  \/ (exists s, find_student students schedule = Some s
                /\ truthy (s !! "student_line_id") = false) ->
  exists st', turn st schedule log = (log, Resolved st')
              /\ sent st' = sent st.
Proof.
  intros Hno. apply turn_without_push. unfold Spec.has_recipient.
  destruct Hno as [Hall | (s & Hfind & Hid)].
  - rewrite (find_student_none schedule Hall). reflexivity.
  - rewrite Hfind. exact Hid.
Qed.

Lemma unreachable_split schedule :
  Spec.unreachable settings students now schedule = true <->
  Spec.eligible schedule = true
  /\ Spec.some_window_due settings now schedule = true
  /\ Spec.has_recipient students schedule = false.
Proof.
  unfold Spec.unreachable. rewrite !andb_true_iff, negb_true_iff. tauto.
Qed.

(** Every eligible schedule of a cycle that resolves is accounted for
    once: sent, skipped for timing, or dropped for want of a recipient. *)
Lemma cycle_accounting schedules st log log' final :
  for_of turn schedules st log = (log', Resolved final) ->
  (length (sent final) + length (skipped final)
   + length (List.filter (Spec.unreachable settings students now) schedules)
   = length (sent st) + length (skipped st)
     + length (List.filter Spec.eligible schedules))%nat.
Proof.
  revert st log. induction schedules as [|x rest IH]; intros st log Hrun.
  - simpl in Hrun. injection Hrun as _ <-. simpl. lia.
  - simpl in Hrun. unfold io_bind in Hrun. simpl.
    destruct (Spec.eligible x) eqn:Hel.
    + destruct (Spec.some_window_due settings now x) eqn:Hdue.
      * destruct (Spec.has_recipient students x) eqn:Hrec.
        -- replace (Spec.unreachable settings students now x) with false
             by (unfold Spec.unreachable; rewrite Hel, Hdue, Hrec; reflexivity).
           destruct (messageBody settings x) as [body|e] eqn:Hbody.
           ++ rewrite (turn_push st x log body Hel Hdue Hrec Hbody) in Hrun.
              destruct (net log _); [|discriminate].
              apply IH in Hrun. simpl in *. rewrite length_app in Hrun.
              simpl in Hrun. lia.
           ++ rewrite (turn_template_error st x log e Hel Hdue Hrec Hbody)
                in Hrun. discriminate.
        -- replace (Spec.unreachable settings students now x) with true
             by (unfold Spec.unreachable; rewrite Hel, Hdue, Hrec; reflexivity).
           rewrite (turn_without_recipient st x log Hel Hdue Hrec) in Hrun.
           apply IH in Hrun. simpl. lia.
      * replace (Spec.unreachable settings students now x) with false
          by (unfold Spec.unreachable; rewrite Hel, Hdue; reflexivity).
        rewrite (turn_no_window st x log Hel Hdue) in Hrun.
        apply IH in Hrun. simpl in *. rewrite length_app in Hrun.
        simpl in Hrun. lia.
    + replace (Spec.unreachable settings students now x) with false
        by (unfold Spec.unreachable; rewrite Hel; reflexivity).
      assert (turn st x log = (log, Resolved st)) as Hturn.
      { unfold Spec.eligible in Hel. apply andb_false_iff in Hel.
        rewrite !negb_false_iff in Hel. destruct Hel as [Hm | Ha];
          [apply turn_missing_field | apply turn_attended]; assumption. }
      rewrite Hturn in Hrun. apply IH in Hrun. exact Hrun.
Qed.

(** C9. An eligible schedule with a due window whose student has no
    recipient identifier is added to neither [sent] nor [skipped]; so in
    a cycle that meets such a schedule the sent count plus [skippedCount]
    is strictly less than the number of eligible schedules. *)
Theorem unreachable_schedule_is_uncounted :
  (forall schedule st log,
     Spec.unreachable settings students now schedule = true ->
     turn st schedule log = (log, Resolved st))
  /\ (forall schedules log final,
       snd (for_of turn schedules {| sent := []; skipped := [] |} log)
       = Resolved final ->
       Exists (fun s => Spec.unreachable settings students now s = true)
              schedules ->
       (length (sent final) + length (skipped final)
        < length (List.filter Spec.eligible schedules))%nat).
Proof.
  split.
  - intros schedule st log (Hel & Hdue & Hrec)%unreachable_split.
    apply turn_without_recipient; assumption.
  - intros schedules log final Hrun Hex.
    destruct (for_of turn schedules {| sent := []; skipped := [] |} log)
      as [log' settled] eqn:Hfor.
    simpl in Hrun. subst settled.
    pose proof (cycle_accounting _ _ _ _ _ Hfor) as Hcount. simpl in Hcount.
    assert (0 < length (List.filter
                          (Spec.unreachable settings students now)
                          schedules))%nat as Hpos; [|lia].
    clear Hfor Hcount. induction Hex as [x rest Hx | x rest _ IH]; simpl.
    + rewrite Hx. simpl. lia.
    + destruct (Spec.unreachable settings students now x); simpl; lia.
Qed.

End Loop.

Section Handler.
Context `{Runtime}.
Variable JSON_parse : string -> option list_documents.
Variable net : network.

Lemma getFirestoreDocs_run projectId apiKey collectionName log :
  let req := Spec.list_request projectId apiKey collectionName in
  getFirestoreDocs JSON_parse net projectId apiKey collectionName log =
  (log ++ [req],
   match net log req with
   | Rejected e => Rejected e
   | Resolved res =>
       if negb (JS.statusCode res =? 200) then Resolved []
       else match JSON_parse (data res) with
            | None => Rejected (SyntaxError "JSON.parse")
            | Some parsed =>
                Resolved (map parseFirestoreDoc
                              (default [] (documents parsed)))
            end
   end).
Proof.
  simpl. unfold getFirestoreDocs, request, io_bind, https_request,
    Spec.list_request. simpl.
  destruct (net log _) as [res|e]; [|reflexivity]. simpl.
  destruct (JS.statusCode res =? 200); simpl; [|reflexivity].
  destruct (JSON_parse (data res)); reflexivity.
Qed.

(** When the Data Source answers with a status other than 200, the cycle
    runs on no records: one request is issued, nothing is sent, and the
    invocation completes with status 200 and an empty summary. *)
Lemma refused_data_source_gives_empty_cycle env now log res :
  Spec.configured env ->
  net log (Spec.list_request (env_string (FIREBASE_PROJECT_ID env))
             (env_string (FIREBASE_WEB_API_KEY env)) "system_data")
  = Resolved res ->
  JS.statusCode res <> 200 ->
  handler JSON_parse net env now log =
  (log ++ [Spec.list_request (env_string (FIREBASE_PROJECT_ID env))
             (env_string (FIREBASE_WEB_API_KEY env)) "system_data"],
   Resolved {| statusCode := 200;
               body := SummaryBody "0件のリマインドを送信しました" [] 0
                         (Date_toISOString now) |}).
Proof.
  intros (Ht & Hp & Hk) Hnet Hstatus. unfold handler.
  rewrite Ht, Hp, Hk. simpl. unfold io_bind.
  rewrite getFirestoreDocs_run. simpl. rewrite Hnet.
  apply Z.eqb_neq in Hstatus. rewrite Hstatus. reflexivity.
Qed.

(** When the request to the Data Source emits an error, the rejection
    reaches the caller of the handler: no summary is produced. *)
Lemma failed_data_source_rejects env now log e :
  Spec.configured env ->
  net log (Spec.list_request (env_string (FIREBASE_PROJECT_ID env))
             (env_string (FIREBASE_WEB_API_KEY env)) "system_data")
  = Rejected e ->
  snd (handler JSON_parse net env now log) = Rejected e.
Proof.
  intros (Ht & Hp & Hk) Hnet. unfold handler.
  rewrite Ht, Hp, Hk. simpl. unfold io_bind.
  rewrite getFirestoreDocs_run. simpl. rewrite Hnet. reflexivity.
Qed.

End Handler.

End ReminderCycle.

(** * Properties of the template renderer *)
Module Renderer.
Import JS CheckReminders.

Section Replace.

Lemma append_nil_l (s : string) : EmptyString +:+ s = s.
Proof. reflexivity. Qed.

Lemma append_cons (c : ascii) (s t : string) :
  String c s +:+ t = String c (s +:+ t).
Proof. reflexivity. Qed.

Lemma length_append (s1 s2 : string) :
  String.length (s1 +:+ s2) = (String.length s1 + String.length s2)%nat.
Proof.
  induction s1 as [|c s1 IH]; [reflexivity|].
  rewrite append_cons. simpl. rewrite IH. reflexivity.
Qed.

Lemma strip_prefix_sound pat s rest :
  strip_prefix pat s = Some rest -> s = pat +:+ rest.
Proof.
  revert s. induction pat as [|a pat IH]; intros s Hs; simpl in Hs.
  - injection Hs as ->. reflexivity.
  - destruct s as [|b s]; [discriminate|].
    destruct (Ascii.eqb_spec a b) as [->|]; [|discriminate].
    rewrite append_cons, (IH s Hs). reflexivity.
Qed.

Lemma strip_prefix_complete pat rest :
  strip_prefix pat (pat +:+ rest) = Some rest.
Proof.
  induction pat as [|a pat IH]; [reflexivity|].
  rewrite append_cons. simpl. rewrite Ascii.eqb_refl. exact IH.
Qed.

(** [split_first] returns an occurrence of the pattern ... *)
Lemma split_first_occurs pat s before after :
  split_first pat s = Some (before, after) ->
  Spec.occurs_at pat s before after.
Proof.
  unfold Spec.occurs_at. revert before.
  induction s as [|c s IH]; intros before Hs; simpl in Hs.
  - destruct (strip_prefix pat EmptyString) as [rest|] eqn:Hp; [|discriminate].
    injection Hs as <- <-. apply strip_prefix_sound in Hp. exact Hp.
  - destruct (strip_prefix pat (String c s)) as [rest|] eqn:Hp.
    + injection Hs as <- <-. apply strip_prefix_sound in Hp. exact Hp.
    + destruct (split_first pat s) as [[b a]|]; [|discriminate].
      injection Hs as <- <-. rewrite append_cons, <- (IH b eq_refl).
      reflexivity.
Qed.

(** ... the earliest one ... *)
Lemma split_first_earliest pat s before after :
  split_first pat s = Some (before, after) ->
  forall before' after', Spec.occurs_at pat s before' after' ->
    (String.length before <= String.length before')%nat.
Proof.
  unfold Spec.occurs_at. revert before.
  induction s as [|c s IH]; intros before Hs before' after' Hocc;
    simpl in Hs.
  - destruct (strip_prefix pat EmptyString); [|discriminate].
    injection Hs as <- <-. simpl. lia.
  - destruct (strip_prefix pat (String c s)) as [rest|] eqn:Hp.
    + injection Hs as <- <-. simpl. lia.
    + destruct (split_first pat s) as [[b a]|] eqn:Hrec; [|discriminate].
      injection Hs as <- <-.
      destruct before' as [|c' before'].
      * rewrite append_nil_l in Hocc.
        rewrite Hocc, strip_prefix_complete in Hp. discriminate.
      * rewrite append_cons in Hocc. injection Hocc as _ Hocc. simpl.
        specialize (IH b eq_refl before' after' Hocc). lia.
Qed.

(** ... and finds one whenever the pattern occurs. *)
Lemma split_first_none pat s :
  split_first pat s = None ->
  forall before after, ~ Spec.occurs_at pat s before after.
Proof.
  unfold Spec.occurs_at.
  induction s as [|c s IH]; intros Hs before after Hocc; simpl in Hs.
  - destruct (strip_prefix pat EmptyString) eqn:Hp; [discriminate|].
    destruct before; [|discriminate]. rewrite append_nil_l in Hocc.
    rewrite Hocc, strip_prefix_complete in Hp. discriminate.
  - destruct (strip_prefix pat (String c s)) eqn:Hp; [discriminate|].
    destruct (split_first pat s) as [[b a]|] eqn:Hrec; [discriminate|].
    destruct before as [|c' before].
    + rewrite append_nil_l in Hocc.
      rewrite Hocc, strip_prefix_complete in Hp. discriminate.
    + rewrite append_cons in Hocc. injection Hocc as _ Hocc.
      exact (IH eq_refl before after Hocc).
Qed.

(** A replacement text without a dollar sign is inserted as it is. *)
Lemma GetSubstitution_dollar_free matched before after v :
  Spec.dollar_free v = true -> GetSubstitution matched before after v = v.
Proof.
  induction v as [|c v IH]; simpl; [reflexivity|].
  intros [Hc Hv]%andb_true_iff. apply negb_true_iff in Hc. rewrite Hc.
  rewrite (IH Hv). reflexivity.
Qed.

(** With such a text [replace] is the replacement of the first
    occurrence, in the sense of the specification. *)
Lemma String_replace_first s pat v :
  Spec.dollar_free v = true ->
  Spec.replaces_first s pat v (String_replace s pat v).
Proof.
  intros Hv. unfold String_replace, Spec.replaces_first.
  destruct (split_first pat s) as [[before after]|] eqn:Hs.
  - right. exists before, after. split.
    + split; [exact (split_first_occurs _ _ _ _ Hs)|].
      exact (split_first_earliest _ _ _ _ Hs).
    + rewrite GetSubstitution_dollar_free by exact Hv. reflexivity.
  - left. split; [reflexivity|]. exact (split_first_none _ _ Hs).
Qed.

(** A [replace] removes at most the pattern. *)
Lemma length_String_replace s pat v :
  (String.length s <= String.length (String_replace s pat v)
                      + String.length pat)%nat.
Proof.
  unfold String_replace.
  destruct (split_first pat s) as [[before after]|] eqn:Hs; [|lia].
  pose proof (split_first_occurs _ _ _ _ Hs) as Hocc.
  unfold Spec.occurs_at in Hocc. apply (f_equal String.length) in Hocc.
  rewrite !length_append in *. lia.
Qed.

End Replace.

Section Render.
Context `{Runtime}.

(** The four values substituted for the placeholders. *)
Lemma absent_field_is_empty_text :
  ToString (js_or None (Some (JStr EmptyString))) = EmptyString
  /\ ToString (js_or (Some JNull) (Some (JStr EmptyString))) = EmptyString
  /\ ToString (js_or (Some (JStr EmptyString)) (Some (JStr EmptyString)))
     = EmptyString.
Proof. repeat split. Qed.

(** As long as no substituted value has a dollar sign, the renderer is
    four replacements of a first occurrence, one after the other, and the
    text pushed is the banner of the window, a line feed and the body. *)
Lemma render_replaces_first_occurrences template schedule :
  let name := ToString (schedule !! "student_name") in
  let subject :=
    ToString (js_or (schedule !! "subject") (Some (JStr EmptyString))) in
  let instructor :=
    ToString (js_or (schedule !! "instructor") (Some (JStr EmptyString))) in
  Spec.dollar_free name = true ->
  Spec.dollar_free (dateStr schedule) = true ->
  Spec.dollar_free subject = true ->
  Spec.dollar_free instructor = true ->
  exists r1 r2 r3,
    Spec.replaces_first template "{生徒名}" name r1
    /\ Spec.replaces_first r1 "{日時}" (dateStr schedule) r2
    /\ Spec.replaces_first r2 "{科目}" subject r3
    /\ Spec.replaces_first r3 "{担当講師}" instructor
         (render template schedule).
Proof.
  intros name subject instructor Hn Hd Hs Hi. unfold render.
  eexists _, _, _. repeat split; apply String_replace_first; assumption.
Qed.

(** C10. When the stored settings have no template, or an empty one, the
    body is rendered from the fallback template, which is not the
    template of the default settings, and the body is not empty. *)
Theorem empty_template_falls_back settings schedule :
  truthy (settings !! "template_24h") = false ->
  messageBody settings schedule = Resolved (render fallback_template schedule)
  /\ fallback_template <> default_template
  /\ default_settings !! "template_24h" = Some (JStr default_template)
  /\ render fallback_template schedule <> EmptyString.
Proof.
  intros Hempty. repeat split.
  - unfold messageBody, js_or. rewrite Hempty. reflexivity.
  - intros Heq. apply (f_equal String.length) in Heq.
    vm_compute in Heq. discriminate.
  - intros Hbody. apply (f_equal String.length) in Hbody.
    unfold render in Hbody.
    set (v1 := ToString (schedule !! "student_name")) in *.
    set (v2 := dateStr schedule) in *.
    set (v3 := ToString (js_or (schedule !! "subject") _)) in *.
    set (v4 := ToString (js_or (schedule !! "instructor") _)) in *.
    set (r1 := String_replace fallback_template "{生徒名}" v1) in *.
    set (r2 := String_replace r1 "{日時}" v2) in *.
    set (r3 := String_replace r2 "{科目}" v3) in *.
    pose proof (length_String_replace fallback_template "{生徒名}" v1) as L1.
    pose proof (length_String_replace r1 "{日時}" v2) as L2.
    pose proof (length_String_replace r2 "{科目}" v3) as L3.
    pose proof (length_String_replace r3 "{担当講師}" v4) as L4.
    fold r1 in L1. fold r2 in L2. fold r3 in L3.
    replace (String.length fallback_template) with 67%nat in L1
      by (evaluate).
    replace (String.length "{生徒名}") with 11%nat in L1 by reflexivity.
    replace (String.length "{日時}") with 8%nat in L2 by reflexivity.
    replace (String.length "{科目}") with 8%nat in L3 by reflexivity.
    replace (String.length "{担当講師}") with 14%nat in L4 by reflexivity.
    simpl in Hbody. lia.
Qed.

End Render.

End Renderer.

(** * Properties of the ad-hoc broadcast *)
Module Broadcast.
Import JS SendReminder.

Section Loop.
Context `{Runtime}.
Variable JSON_parse : string -> option json.
Variable net : network.
Variable message : option json.
Variable accessToken : string.

#[local] Abbreviation push userId :=
  (Spec.push_request accessToken (Some userId) message).

Lemma pushMessage_run userId log :
  pushMessage net userId message accessToken log =
  (log ++ [push userId],
   match net log (push userId) with
   | Resolved res =>
       if JS.statusCode res =? 200 then Resolved (data res)
       else Rejected (Error ("LINE API error: "
                             +:+ pretty (JS.statusCode res)
                             +:+ " " +:+ data res))
   | Rejected e => Rejected e
   end).
Proof.
  unfold pushMessage, io_bind, https_request, Spec.push_request.
  destruct (net log _) as [res|e]; [|reflexivity].
  destruct (JS.statusCode res =? 200); reflexivity.
Qed.

(** One turn of the loop always resolves, with one more record. *)
Lemma attempt_run results userId log :
  attempt net message accessToken results userId log =
  (log ++ [push userId],
   Resolved (results ++ [Spec.outcome_record userId (net log (push userId))])).
Proof.
  unfold attempt, try_catch, io_bind. rewrite pushMessage_run.
  unfold Spec.outcome_record.
  destruct (net log _) as [res|e]; [|reflexivity].
  destruct (JS.statusCode res =? 200); reflexivity.
Qed.

Lemma broadcast_run userIds results log :
  for_of (attempt net message accessToken) userIds results log =
  (log ++ map (fun userId => push userId) userIds,
   Resolved (results ++
             zip_with Spec.outcome_record userIds
               (Spec.answers net accessToken message log userIds))).
Proof.
  revert results log. induction userIds as [|userId rest IH];
    intros results log; simpl.
  - rewrite !app_nil_r. reflexivity.
  - unfold io_bind. rewrite attempt_run, IH.
    rewrite <- !app_assoc. reflexivity.
Qed.

Lemma length_answers log userIds :
  length (Spec.answers net accessToken message log userIds) = length userIds.
Proof.
  revert log. induction userIds as [|userId rest IH]; intros log; simpl;
    [reflexivity | rewrite IH; reflexivity].
Qed.

Lemma outcome_record_recipient recipient answer :
  userId (Spec.outcome_record recipient answer) = recipient.
Proof.
  unfold Spec.outcome_record. destruct answer as [res|e]; [|reflexivity].
  destruct (JS.statusCode res =? 200); reflexivity.
Qed.

Lemma outcome_record_failed recipient answer :
  Spec.channel_failed answer ->
  status (Spec.outcome_record recipient answer) = "error"
  /\ error (Spec.outcome_record recipient answer) <> None.
Proof.
  unfold Spec.outcome_record, Spec.channel_failed. intros Hfail.
  destruct answer as [res|e]; [|split; [reflexivity | discriminate]].
  specialize (Hfail res eq_refl). apply Z.eqb_neq in Hfail. rewrite Hfail.
  split; [reflexivity | discriminate].
Qed.

Lemma outcome_record_accepted recipient answer :
  ~ Spec.channel_failed answer ->
  status (Spec.outcome_record recipient answer) = "success"
  /\ error (Spec.outcome_record recipient answer) = None.
Proof.
  unfold Spec.outcome_record, Spec.channel_failed. intros Hok.
  destruct answer as [res|e].
  - destruct (JS.statusCode res =? 200) eqn:Hs; [split; reflexivity|].
    exfalso. apply Hok. intros res' [= <-]. apply Z.eqb_neq, Hs.
  - exfalso. apply Hok. intros res' Hres. discriminate.
Qed.

End Loop.

Section Handler.
Context `{Runtime}.
Variable JSON_parse : string -> option json.
Variable net : network.

(** C8. A broadcast to a list of recipient identifiers issues one push per
    identifier, in order, and answers with status 200 and one record per
    identifier, in order.  The record of a recipient says error when the
    channel failed on the push to that recipient and success otherwise; a
    failure neither stops the pushes to the later recipients nor changes
    the record of any other recipient. *)
Theorem broadcast_records_every_recipient accessToken ev parsed userIds log :
  httpMethod ev = "POST" ->
  env_truthy accessToken = true ->
  JSON_parse (match body ev with Some s => s | None => "null" end)
  = Some parsed ->
  property parsed "userIds" = Some (JArr userIds) ->
  truthy (property parsed "message") = true ->
  Spec.broadcast_report net (env_string accessToken)
    (property parsed "message") log userIds
    (handler JSON_parse net accessToken ev log).
Proof.
  intros Hpost Htoken Hparse Hids Hmsg. unfold Spec.broadcast_report.
  set (message := property parsed "message").
  set (token := env_string accessToken).
  set (replies := Spec.answers net token message log userIds).
  exists (zip_with Spec.outcome_record userIds replies).
  assert (forall i r,
            zip_with Spec.outcome_record userIds replies !! i = Some r ->
            exists recipient reply,
              userIds !! i = Some recipient /\ replies !! i = Some reply
              /\ r = Spec.outcome_record recipient reply) as Hlookup.
  { intros i r Hr. apply lookup_zip_with_Some in Hr as (x & y & -> & Hx & Hy).
    eauto. }
  split; [|split; [|split; [|split]]].
  - unfold handler. rewrite Hpost. simpl. rewrite Htoken. simpl.
    rewrite Hparse.
    destruct parsed as [| | | | |members]; try discriminate Hids.
    fold message in Hmsg. subst message. rewrite Hids, Hmsg.
    set (message := property (JObj members) "message") in *.
    pose proof (broadcast_run net message token userIds [] log) as Hrun.
    subst replies message token. simpl in Hrun |- *. unfold io_bind.
    rewrite Hrun. reflexivity.
  - unfold replies. rewrite length_zip_with, length_answers. lia.
  - apply list_eq. intros i. rewrite list_lookup_fmap.
    destruct (zip_with Spec.outcome_record userIds replies !! i) as [r|] eqn:Hr.
    + destruct (Hlookup i r Hr) as (recipient & reply & Hx & _ & ->).
      simpl. rewrite outcome_record_recipient, Hx. reflexivity.
    + simpl. apply lookup_ge_None in Hr. unfold replies in Hr.
      rewrite length_zip_with, length_answers in Hr.
      symmetry. apply lookup_ge_None. lia.
  - apply Forall_lookup. intros i r Hr.
    destruct (Hlookup i r Hr) as (recipient & reply & _ & _ & ->).
    unfold Spec.outcome_record. destruct reply as [res|e]; [|right; reflexivity].
    destruct (JS.statusCode res =? 200); [left | right]; reflexivity.
  - intros i r Hr.
    destruct (Hlookup i r Hr) as (recipient & reply & Hx & Hy & ->).
    exists recipient, reply. split; [exact Hx|]. split; [exact Hy|].
    split; [apply outcome_record_recipient|]. split.
    + apply outcome_record_failed.
    + apply outcome_record_accepted.
Qed.

End Handler.

End Broadcast.

(** * Worked scenarios *)
Module Scenarios.
Import JS CheckReminders.

#[local] Existing Instance Sample.runtime.

(** The boundary of the 24-hour band under the default settings. *)
Example band_boundaries :
  truthy (is24h default_settings (Some 1424)) = false
  /\ truthy (is24h default_settings (Some 1425)) = true
  /\ truthy (is24h default_settings (Some 1455)) = true
  /\ truthy (is24h default_settings (Some 1456)) = false
  /\ truthy (is1h default_settings (Some 60)) = false.
Proof. repeat split; evaluate. Qed.

(** The class of 花子 seen 1435 minutes ahead is due for the 24-hour
    window; seen 1560 minutes ahead it is skipped. *)
Lemma window_due_exactly_in_band_witness :
  truthy (is24h default_settings
            (diffMin (Sample.class_of "花子") Sample.day_before)) = true
  /\ iteration Sample.net_ok default_settings [] Sample.too_early "token"
       Sample.start (Sample.class_of "花子") []
     = ([], Resolved
              {| sent := [];
                 skipped := [] ++
                   [{| skipped_student := Sample.class_of "花子" !! "student_name";
                       skipped_diffMin :=
                         diffMin (Sample.class_of "花子") Sample.too_early |}] |}).
Proof.
  split.
  - destruct (ReminderCycle.window_due_exactly_in_band Sample.net_ok
                default_settings [] Sample.day_before "token"
                (Sample.class_of "花子")) as (_ & Hband & _).
    refine (proj2 (Hband _) _).
    + evaluate.
    + exists 1435. split; [evaluate | lia].
  - destruct (ReminderCycle.window_due_exactly_in_band Sample.net_ok
                default_settings [] Sample.too_early "token"
                (Sample.class_of "花子")) as (_ & _ & _ & _ & Hskip & _).
    refine (Hskip Sample.start [] _ _).
    + evaluate.
    + evaluate.
Defined.

(** At 1435 minutes the window found is the 24-hour one, and so is the
    label. *)
Lemma windows_mutually_exclusive_witness :
  label_of default_settings (Some 1435) = "24時間前".
Proof.
  refine (proj2 (proj2 (ReminderCycle.windows_mutually_exclusive
                          default_settings (Some 1435))
                   Spec.TwentyFourHour _)).
  evaluate.
Defined.

(** The class marked absent changes nothing, a day before the class. *)
Lemma excluded_schedule_leaves_no_trace_witness :
  iteration Sample.net_ok default_settings [Sample.student_of "花子" "U1"]
    Sample.day_before "token" Sample.start Sample.absent_class []
  = ([], Resolved Sample.start).
Proof.
  refine (proj1 (ReminderCycle.excluded_schedule_leaves_no_trace
                   Sample.net_ok default_settings
                   [Sample.student_of "花子" "U1"] Sample.day_before "token"
                   Sample.absent_class _) Sample.start []).
  right. left. evaluate.
Defined.

(** 花子 is on file without a LINE account: no request is issued. *)
Lemma no_recipient_no_push_witness :
  exists st',
    iteration Sample.net_ok default_settings
      [Sample.student_without_line "花子"] Sample.day_before "token"
      Sample.start (Sample.class_of "花子") []
    = ([], Resolved st')
    /\ sent st' = sent Sample.start.
Proof.
  refine (ReminderCycle.no_recipient_no_push Sample.net_ok default_settings
            [Sample.student_without_line "花子"] Sample.day_before "token"
            (Sample.class_of "花子") Sample.start [] _).
  right. exists (Sample.student_without_line "花子").
  split; evaluate.
Defined.

(** Two eligible classes, one reminder sent, none skipped: 花子, without
    a LINE account, is in neither list. *)
Lemma unreachable_schedule_is_uncounted_witness :
  iteration Sample.net_ok default_settings
    [Sample.student_without_line "花子"; Sample.student_of "太郎" "U2"]
    Sample.day_before "token" Sample.start (Sample.class_of "花子") []
  = ([], Resolved Sample.start)
  /\ (length [ {| student := Some (JStr "太郎"); label := "24時間前";
                  lineStatus := 200 |} ]
      + length (@nil skipped_entry)
      < length (List.filter Spec.eligible
                  [Sample.class_of "花子"; Sample.class_of "太郎"]))%nat.
Proof.
  pose proof (ReminderCycle.unreachable_schedule_is_uncounted Sample.net_ok
                default_settings
                [Sample.student_without_line "花子";
                 Sample.student_of "太郎" "U2"]
                Sample.day_before "token") as [Hturn Hcount].
  split.
  - refine (Hturn (Sample.class_of "花子") Sample.start [] _). evaluate.
  - refine (Hcount [Sample.class_of "花子"; Sample.class_of "太郎"] []
              {| sent := [ {| student := Some (JStr "太郎");
                              label := "24時間前"; lineStatus := 200 |} ];
                 skipped := [] |} _ _).
    + evaluate.
    + apply Exists_cons_hd. evaluate.
Defined.

(** Settings stored without a template render the fallback. *)
Lemma empty_template_falls_back_witness :
  messageBody Sample.settings_without_template (Sample.class_of "花子")
  = Resolved (render fallback_template (Sample.class_of "花子"))
  /\ fallback_template <> default_template
  /\ default_settings !! "template_24h" = Some (JStr default_template)
  /\ render fallback_template (Sample.class_of "花子") <> EmptyString.
Proof.
  refine (Renderer.empty_template_falls_back
            Sample.settings_without_template (Sample.class_of "花子") _).
  evaluate.
Defined.

(** The broadcast to U1, U2 and U3 with the connection to U2 failing. *)
Lemma broadcast_records_every_recipient_witness :
  Spec.broadcast_report Sample.net_one_down "token"
    (Some (JStr "明日は休講です")) []
    [JStr "U1"; JStr "U2"; JStr "U3"]
    (SendReminder.handler Sample.parse_broadcast Sample.net_one_down
       (Some "token") Sample.broadcast []).
Proof.
  refine (Broadcast.broadcast_records_every_recipient Sample.parse_broadcast
            Sample.net_one_down (Some "token") Sample.broadcast
            (JObj [("userIds", JArr [JStr "U1"; JStr "U2"; JStr "U3"]);
                   ("message", JStr "明日は休講です")])
            [JStr "U1"; JStr "U2"; JStr "U3"] [] _ _ _ _ _);
    evaluate.
Defined.

(** The broadcast of the specification: three recipients, the channel
    fails for the second one. *)
Example broadcast_with_one_failure :
  snd (SendReminder.handler Sample.parse_broadcast Sample.net_one_down
         (Some "token") Sample.broadcast [])
  = Resolved
      {| SendReminder.statusCode := 200;
         SendReminder.resp_body :=
           SendReminder.ResultsBody
             [ {| SendReminder.userId := JStr "U1";
                  SendReminder.status := "success";
                  SendReminder.error := None |};
               {| SendReminder.userId := JStr "U2";
                  SendReminder.status := "error";
                  SendReminder.error := Some "socket hang up" |};
               {| SendReminder.userId := JStr "U3";
                  SendReminder.status := "success";
                  SendReminder.error := None |} ] |}.
Proof. evaluate. Qed.

(** The first end-to-end scenario of the specification: 1435 minutes
    before the class both stored students get the 24-hour reminder. *)
Example day_before_sends :
  snd (handler Sample.parse_stored Sample.net_ok Sample.env
         Sample.day_before [])
  = Resolved
      {| statusCode := 200;
         body := SummaryBody "2件のリマインドを送信しました"
                   [ {| student := Some (JStr "花子"); label := "24時間前";
                        lineStatus := 200 |};
                     {| student := Some (JStr "太郎"); label := "24時間前";
                        lineStatus := 200 |} ]
                   0 "1717895100000" |}.
Proof. evaluate. Qed.

(** The second one: 1560 minutes before, nothing is sent and both
    schedules are skipped. *)
Example too_early_skips :
  handler Sample.parse_stored Sample.net_ok Sample.env Sample.too_early []
  = ([Spec.list_request "creatte-contactsystem" "key" "system_data"],
     Resolved
       {| statusCode := 200;
          body := SummaryBody "0件のリマインドを送信しました" [] 2
                    "1717887600000" |}).
Proof. evaluate. Qed.

(** C2. A push that LINE answers with an error status is recorded with
    that status and the cycle goes on; but when the request of one push
    emits an error, the handler rejects: the cycle stops at that schedule,
    the next schedule is never pushed and no summary is returned. *)
Theorem failed_push_aborts_cycle :
  snd (handler Sample.parse_stored Sample.net_line_refuses Sample.env
         Sample.day_before [])
  = Resolved
      {| statusCode := 200;
         body := SummaryBody "2件のリマインドを送信しました"
                   [ {| student := Some (JStr "花子"); label := "24時間前";
                        lineStatus := 401 |};
                     {| student := Some (JStr "太郎"); label := "24時間前";
                        lineStatus := 401 |} ]
                   0 "1717895100000" |}
  /\ snd (handler Sample.parse_stored Sample.net_line_down Sample.env
            Sample.day_before [])
     = Rejected (Error "read ECONNRESET")
  /\ map (fun req => to <$> written req)
         (fst (handler Sample.parse_stored Sample.net_line_down Sample.env
                 Sample.day_before []))
     = [None; Some (Some (JStr "U1"))].
Proof. repeat split; evaluate. Qed.

(** C7. When Firestore answers with status 403 the cycle runs on no
    records and answers 200; but when the request to Firestore emits an
    error, the handler rejects and returns no response. *)
Theorem failed_data_source_aborts_cycle :
  snd (handler Sample.parse_stored Sample.net_firestore_refuses Sample.env
         Sample.day_before [])
  = Resolved
      {| statusCode := 200;
         body := SummaryBody "0件のリマインドを送信しました" [] 0
                   "1717895100000" |}
  /\ snd (handler Sample.parse_stored Sample.net_firestore_down Sample.env
            Sample.day_before [])
     = Rejected (Error "getaddrinfo ENOTFOUND firestore.googleapis.com").
Proof. repeat split; evaluate. Qed.

(** C6. A dollar pattern in a substituted value is expanded by [replace]
    instead of being inserted: a student called [$&] leaves the
    placeholder in place, and a subject with two dollar signs loses one. *)
Theorem dollar_pattern_in_value_is_expanded :
  render "{生徒名}さん" (Sample.class_of "$&") = "{生徒名}さん"
  /\ render "📚 {科目}" (Sample.class_about "US$$ history")
     = "📚 US$ history"
  /\ render "📚 {科目}" (Sample.class_about "数学") = "📚 数学".
Proof. repeat split; evaluate. Qed.

End Scenarios.

(** * Properties of the record normalizer *)
Module Normalizer.
Import JS CheckReminders.

Section SplitPop.

Lemma after_last_slash_id s current :
  Notions.has_slash s = false -> after_last_slash s current = current.
Proof.
  revert current. induction s as [|c s IH]; intros current Hs; simpl in *.
  - reflexivity.
  - apply orb_false_iff in Hs as [Hc Hs]. rewrite Hc. apply IH, Hs.
Qed.

Lemma after_last_slash_segment before id current :
  Notions.has_slash id = false ->
  after_last_slash (before +:+ "/" +:+ id) current = id.
Proof.
  intros Hid. revert current.
  induction before as [|c before IH]; intros current.
  - rewrite Renderer.append_nil_l, Renderer.append_cons. simpl.
    rewrite Renderer.append_nil_l. apply after_last_slash_id, Hid.
  - rewrite Renderer.append_cons. simpl.
    destruct (Ascii.eqb c "/"); apply IH.
Qed.

Lemma append_nil_r (s : string) : s +:+ EmptyString = s.
Proof.
  induction s as [|c s IH]; [reflexivity|].
  rewrite Renderer.append_cons, IH. reflexivity.
Qed.

Lemma append_snoc (s : string) (c : ascii) (t : string) :
  s +:+ String c t = (s +:+ String c EmptyString) +:+ t.
Proof.
  induction s as [|d s IH]; [reflexivity|].
  rewrite !Renderer.append_cons, IH. reflexivity.
Qed.

Lemma has_slash_append (s t : string) :
  Notions.has_slash (s +:+ t) = Notions.has_slash s || Notions.has_slash t.
Proof.
  induction s as [|c s IH]; [reflexivity|].
  rewrite Renderer.append_cons. simpl. rewrite IH, orb_assoc. reflexivity.
Qed.

Lemma after_last_slash_clean t :
  forall middle,
    Notions.has_slash middle = false ->
    Notions.has_slash (after_last_slash t (middle +:+ t)) = false.
Proof.
  induction t as [|c t IH]; intros middle Hm; simpl.
  - rewrite append_nil_r. exact Hm.
  - destruct (Ascii.eqb c "/") eqn:Hc.
    + exact (IH EmptyString eq_refl).
    + rewrite append_snoc. apply IH. rewrite has_slash_append, Hm. simpl.
      rewrite Hc. reflexivity.
Qed.

(** X1. [split('/').pop()] returns the text after the last slash: a text
    without a slash is returned whole, of a path ending in a segment
    without a slash that segment is returned, whatever precedes it, and
    the result never has a slash. *)
Theorem split_pop_last_segment :
  (forall s, Notions.has_slash s = false -> split_pop s = s)
  /\ (forall before id,
       Notions.has_slash id = false ->
       split_pop (before +:+ "/" +:+ id) = id)
  /\ (forall s, Notions.has_slash (split_pop s) = false).
Proof.
  repeat split.
  - intros s Hs. apply after_last_slash_id, Hs.
  - intros before id Hid. apply after_last_slash_segment, Hid.
  - intros s. exact (after_last_slash_clean s EmptyString eq_refl).
Qed.

End SplitPop.

Section Parse.
Context `{Runtime}.

#[local] Abbreviation store :=
  (fun (r : gmap string json) (kv : string * firestore_value) =>
     <[kv.1 := field_value kv.2]> r).

Lemma store_other (l : list (string * firestore_value))
    (m : gmap string json) (k : string) :
  k ∉ l.*1 -> foldl store m l !! k = m !! k.
Proof.
  revert m. induction l as [|[k' v'] l IH]; intros m Hk; simpl.
  - reflexivity.
  - rewrite fmap_cons, not_elem_of_cons in Hk. destruct Hk as [Hne Hk].
    rewrite (IH _ Hk). simpl in *. apply lookup_insert_ne. congruence.
Qed.

Lemma store_bound (l : list (string * firestore_value))
    (m : gmap string json) (k : string) (v : firestore_value) :
  NoDup (l.*1) -> (k, v) ∈ l ->
  foldl store m l !! k = Some (field_value v).
Proof.
  revert m. induction l as [|[k' v'] l IH]; intros m Hnd Hin; simpl.
  - inversion Hin.
  - rewrite fmap_cons in Hnd. apply NoDup_cons in Hnd as [Hfresh Hnd].
    apply elem_of_cons in Hin as [Heq | Hin].
    + injection Heq as -> ->. rewrite (store_other _ _ _ Hfresh).
      simpl. apply lookup_insert_eq.
    + apply IH; assumption.
Qed.

Lemma parsed_absent (doc : firestore_document) (k : string) :
  k <> "__backendId" -> k ∉ (Notions.fields_of doc).*1 ->
  parseFirestoreDoc doc !! k = None.
Proof.
  intros Hk Hfresh. unfold parseFirestoreDoc.
  rewrite lookup_insert_ne by congruence.
  unfold Notions.fields_of in Hfresh.
  rewrite (store_other _ _ _ Hfresh). apply lookup_empty.
Qed.

Lemma parsed_bound (doc : firestore_document) (k : string)
    (v : firestore_value) :
  NoDup ((Notions.fields_of doc).*1) ->
  k <> "__backendId" -> (k, v) ∈ Notions.fields_of doc ->
  parseFirestoreDoc doc !! k = Some (field_value v).
Proof.
  intros Hnd Hk Hin. unfold parseFirestoreDoc.
  rewrite lookup_insert_ne by congruence. apply store_bound; assumption.
Qed.


End Parse.

End Normalizer.

(** * Further properties of the reminder cycle *)
Module CycleFacts.
Import JS CheckReminders.

Section Loop.
Context `{Runtime}.
Variable net : network.
Variable settings : gmap string json.
Variable students : list (gmap string json).
Variable now : Z.
Variable lineToken : string.

#[local] Abbreviation turn := (iteration net settings students now lineToken).
#[local] Abbreviation reminded := (Notions.reminded settings students now).
#[local] Abbreviation mistimed := (Notions.mistimed settings now).
#[local] Abbreviation request_for :=
  (Notions.reminder_request settings students now lineToken).

(** The four ways a turn of the loop can go. *)
Lemma turn_cases st schedule log :
  (reminded schedule = false /\ mistimed schedule = false
   /\ turn st schedule log = (log, Resolved st))
  \/ (reminded schedule = false /\ mistimed schedule = true
      /\ turn st schedule log =
         (log, Resolved {| sent := sent st;
                           skipped := skipped st
                                      ++ [Notions.skip_of now schedule] |}))
  \/ (reminded schedule = true /\ mistimed schedule = false
      /\ exists body,
           messageBody settings schedule = Resolved body
           /\ turn st schedule log =
              (log ++ [request_for schedule body],
               match net log (request_for schedule body) with
               | Resolved res =>
                   Resolved
                     {| sent := sent st ++
                          [{| student := schedule !! "student_name";
                              label := label_of settings
                                         (diffMin schedule now);
                              lineStatus := JS.statusCode res |}];
                        skipped := skipped st |}
               | Rejected e => Rejected e
               end))
  \/ (reminded schedule = true /\ mistimed schedule = false
      /\ exists e,
           messageBody settings schedule = Rejected e
           /\ turn st schedule log = (log, Rejected e)).
Proof.
  unfold Notions.reminded, Notions.mistimed.
  destruct (Spec.eligible schedule) eqn:Hel; simpl.
  - destruct (Spec.some_window_due settings now schedule) eqn:Hdue; simpl.
    + destruct (Spec.has_recipient students schedule) eqn:Hrec.
      * destruct (messageBody settings schedule) as [body|e] eqn:Hbody.
        -- right. right. left. repeat split. exists body.
           split; [reflexivity|].
           exact (ReminderCycle.turn_push net settings students now
                    lineToken st schedule log body Hel Hdue Hrec Hbody).
        -- right. right. right. repeat split. exists e.
           split; [reflexivity|].
           exact (ReminderCycle.turn_template_error net settings students
                    now lineToken st schedule log e Hel Hdue Hrec Hbody).
      * left. repeat split.
        exact (ReminderCycle.turn_without_recipient net settings students
                 now lineToken st schedule log Hel Hdue Hrec).
    + right. left. repeat split.
      exact (ReminderCycle.turn_no_window net settings students now
               lineToken st schedule log Hel Hdue).
  - left. repeat split. unfold Spec.eligible in Hel.
    apply andb_false_iff in Hel. rewrite !negb_false_iff in Hel.
    destruct Hel as [Hm | Ha].
    + apply ReminderCycle.turn_missing_field, Hm.
    + apply ReminderCycle.turn_attended, Ha.
Qed.

Lemma cycle_report schedules st log log' final :
  for_of turn schedules st log = (log', Resolved final) ->
  map (fun e => (student e, label e)) (sent final)
  = map (fun e => (student e, label e)) (sent st)
    ++ map (Notions.reminder_of settings now) (List.filter reminded schedules)
  /\ skipped final
     = skipped st ++ map (Notions.skip_of now) (List.filter mistimed schedules).
Proof.
  revert st log. induction schedules as [|x rest IH]; intros st log Hrun.
  - simpl in Hrun. injection Hrun as _ <-. simpl. rewrite !app_nil_r.
    split; reflexivity.
  - simpl in Hrun. unfold io_bind in Hrun. simpl.
    destruct (turn_cases st x log)
      as [(Hr & Hm & Hturn) | [(Hr & Hm & Hturn)
         | [(Hr & Hm & body & Hbody & Hturn) | (Hr & Hm & e & _ & Hturn)]]];
      rewrite Hturn in Hrun; rewrite Hr, Hm.
    + apply IH in Hrun. exact Hrun.
    + apply IH in Hrun as [Hsent Hskip]. simpl in *. split; [exact Hsent|].
      rewrite Hskip, <- app_assoc. reflexivity.
    + destruct (net log _) as [res|e]; [|discriminate].
      apply IH in Hrun as [Hsent Hskip]. simpl in *. split; [|exact Hskip].
      rewrite Hsent, map_app, <- app_assoc. reflexivity.
    + discriminate.
Qed.

(** X3. When a cycle resolves, the students and labels it reports as sent
    are exactly those of the schedules that are eligible, due and have a
    recipient, and the entries it counts as skipped are exactly those of
    the eligible schedules outside every enabled band, both in the order
    of the schedules. *)
Theorem resolved_cycle_report schedules st log log' final :
  for_of turn schedules st log = (log', Resolved final) ->
  map (fun e => (student e, label e)) (sent final)
  = map (fun e => (student e, label e)) (sent st)
    ++ map (Notions.reminder_of settings now) (List.filter reminded schedules)
  /\ skipped final
     = skipped st ++ map (Notions.skip_of now) (List.filter mistimed schedules).
Proof. apply cycle_report. Qed.

Lemma cycle_requests schedules st log log' settled :
  for_of turn schedules st log = (log', settled) ->
  exists pushed,
    log' = log ++ pushed
    /\ Forall (fun req =>
                 exists schedule body,
                   schedule ∈ schedules
                   /\ reminded schedule = true
                   /\ messageBody settings schedule = Resolved body
                   /\ req = request_for schedule body) pushed.
Proof.
  revert st log. induction schedules as [|x rest IH]; intros st log Hrun.
  - simpl in Hrun. injection Hrun as <- _. exists [].
    rewrite app_nil_r. split; [reflexivity | constructor].
  - simpl in Hrun. unfold io_bind in Hrun.
    assert (forall st1, for_of turn rest st1 log = (log', settled) ->
              exists pushed,
                log' = log ++ pushed
                /\ Forall (fun req =>
                     exists schedule body,
                       schedule ∈ x :: rest
                       /\ reminded schedule = true
                       /\ messageBody settings schedule = Resolved body
                       /\ req = request_for schedule body) pushed) as Hsame.
    { intros st1 Hrest. destruct (IH _ _ Hrest) as (pushed & -> & Hall).
      exists pushed. split; [reflexivity|].
      eapply Forall_impl; [exact Hall|]. simpl.
      intros req (schedule & body & Hin & Hrest').
      exists schedule, body. split; [right; exact Hin | exact Hrest']. }
    destruct (turn_cases st x log)
      as [(Hr & Hm & Hturn) | [(Hr & Hm & Hturn)
         | [(Hr & Hm & body & Hbody & Hturn) | (Hr & Hm & e & _ & Hturn)]]];
      rewrite Hturn in Hrun.
    + exact (Hsame _ Hrun).
    + exact (Hsame _ Hrun).
    + assert (exists schedule body0,
                schedule ∈ x :: rest /\ reminded schedule = true
                /\ messageBody settings schedule = Resolved body0
                /\ request_for x body = request_for schedule body0) as Hx.
      { exists x, body. repeat split; [left | exact Hr | exact Hbody]. }
      destruct (net log _) as [res|e].
      * destruct (IH _ _ Hrun) as (pushed & -> & Hall).
        exists (request_for x body :: pushed). rewrite <- app_assoc.
        split; [reflexivity|]. constructor; [exact Hx|].
        eapply Forall_impl; [exact Hall|]. simpl.
        intros req (schedule & body0 & Hin & Hrest').
        exists schedule, body0. split; [right; exact Hin | exact Hrest'].
      * injection Hrun as <- _. exists [request_for x body].
        split; [reflexivity|]. constructor; [exact Hx | constructor].
    + injection Hrun as <- _. exists []. rewrite app_nil_r.
      split; [reflexivity | constructor].
Qed.

(** X4. Whatever way a cycle ends, every request it issues is the push of
    a rendered reminder for one of the schedules, which is eligible and
    due, to the recipient identifier stored for the first student record
    with the student name of that schedule. *)
Theorem cycle_only_pushes_reminders schedules st log log' settled :
  for_of turn schedules st log = (log', settled) ->
  exists pushed,
    log' = log ++ pushed
    /\ Forall (fun req =>
                 exists schedule body,
                   schedule ∈ schedules
                   /\ reminded schedule = true
                   /\ messageBody settings schedule = Resolved body
                   /\ req = request_for schedule body) pushed.
Proof. apply cycle_requests. Qed.

(** X5. When a cycle resolves it has issued one push per entry of the
    sent list, in the same order, and the status recorded in an entry is
    the status the channel answered to that very push, whatever that
    status is. *)
Theorem resolved_cycle_statuses schedules st log log' final :
  for_of turn schedules st log = (log', Resolved final) ->
  exists entries pushed,
    sent final = sent st ++ entries
    /\ log' = log ++ pushed
    /\ length entries = length pushed
    /\ forall i e,
         entries !! i = Some e ->
         exists req res,
           pushed !! i = Some req
           /\ net (log ++ take i pushed) req = Resolved res
           /\ lineStatus e = JS.statusCode res.
Proof.
  revert st log. induction schedules as [|x rest IH]; intros st log Hrun.
  - simpl in Hrun. injection Hrun as <- <-. exists [], [].
    rewrite !app_nil_r. repeat split. intros i e Hi.
    rewrite lookup_nil in Hi. discriminate.
  - simpl in Hrun. unfold io_bind in Hrun.
    destruct (turn_cases st x log)
      as [(_ & _ & Hturn) | [(_ & _ & Hturn)
         | [(_ & _ & body & _ & Hturn) | (_ & _ & e & _ & Hturn)]]];
      rewrite Hturn in Hrun.
    + exact (IH _ _ Hrun).
    + destruct (IH _ _ Hrun) as (entries & pushed & Hs & Hl & Hlen & Hpair).
      exists entries, pushed. simpl in Hs. repeat split; assumption.
    + destruct (net log (request_for x body)) as [res|e] eqn:Hnet;
        [|discriminate].
      destruct (IH _ _ Hrun) as (entries & pushed & Hs & Hl & Hlen & Hpair).
      simpl in Hs.
      exists ({| student := x !! "student_name";
                 label := label_of settings (diffMin x now);
                 lineStatus := JS.statusCode res |} :: entries),
             (request_for x body :: pushed).
      split; [rewrite Hs, <- app_assoc; reflexivity|].
      split; [rewrite Hl, <- app_assoc; reflexivity|].
      split; [simpl; rewrite Hlen; reflexivity|].
      intros [|i] e Hi; simpl in Hi.
      * injection Hi as <-. exists (request_for x body), res.
        simpl. rewrite app_nil_r. repeat split. exact Hnet.
      * destruct (Hpair i e Hi) as (req & res' & Hreq & Hans & Hst).
        exists req, res'. simpl. rewrite <- app_assoc in Hans.
        repeat split; assumption.
    + discriminate.
Qed.

(** X6. A schedule document that has no field for its date, its time or
    its student name, or has it as an empty string or with a type the
    normalizer does not decode, leaves both lists and the requests as
    they were. *)
Theorem undecodable_field_excludes_schedule (doc : firestore_document)
    (k : string) st log :
  NoDup ((Notions.fields_of doc).*1) ->
  k = "schedule_date" \/ k = "schedule_time" \/ k = "student_name" ->
  k ∉ (Notions.fields_of doc).*1
  \/ (k, OtherValue) ∈ Notions.fields_of doc
  \/ (k, StringValue EmptyString) ∈ Notions.fields_of doc ->
  turn st (parseFirestoreDoc doc) log = (log, Resolved st).
Proof.
  intros Hnd Hk Hfield.
  assert (k <> "__backendId") as Hne
    by (destruct Hk as [-> | [-> | ->]]; discriminate).
  assert (truthy (parseFirestoreDoc doc !! k) = false) as Hfalsy.
  { destruct Hfield as [Habs | [Hin | Hin]].
    - rewrite (Normalizer.parsed_absent doc k Hne Habs). reflexivity.
    - rewrite (Normalizer.parsed_bound doc k _ Hnd Hne Hin). reflexivity.
    - rewrite (Normalizer.parsed_bound doc k _ Hnd Hne Hin). reflexivity. }
  apply ReminderCycle.turn_missing_field. unfold missing_field.
  destruct Hk as [-> | [-> | ->]]; rewrite Hfalsy; simpl.
  - reflexivity.
  - apply orb_true_iff. left. apply orb_true_r.
  - apply orb_true_r.
Qed.

(** X7. When the stored template is a truthy value that is not a string,
    the turn of a schedule that is eligible, due and has a recipient
    throws before any request is issued. *)
Theorem non_text_template_rejects template schedule st log :
  settings !! "template_24h" = Some template ->
  truthy (Some template) = true ->
  (forall text, template <> JStr text) ->
  reminded schedule = true ->
  exists m, turn st schedule log = (log, Rejected (TypeError m)).
Proof.
  intros Htpl Htruthy Hnot Hrem.
  assert (exists m, messageBody settings schedule = Rejected (TypeError m))
    as [m He].
  { unfold messageBody, js_or. rewrite Htpl, Htruthy.
    destruct template; eauto. exfalso. eapply Hnot. reflexivity. }
  exists m.
  destruct (turn_cases st schedule log)
    as [(Hr & _) | [(Hr & _)
       | [(_ & _ & body & Hbody & _) | (_ & _ & e' & He' & Hturn)]]];
    try congruence.
Qed.

(** X22. When the request of a push emits an error, the cycle rejects
    with that error right after that request: the schedules that follow
    are not processed and what was recorded so far is not returned. *)
Theorem failed_push_stops_cycle before x after st log log1 st1 body e :
  for_of turn before st log = (log1, Resolved st1) ->
  reminded x = true ->
  messageBody settings x = Resolved body ->
  net log1 (request_for x body) = Rejected e ->
  for_of turn (before ++ x :: after) st log
  = (log1 ++ [request_for x body], Rejected e).
Proof.
  intros Hbefore Hrem Hbody Hnet.
  rewrite ReminderCycle.for_of_app. unfold io_bind at 1. rewrite Hbefore.
  simpl. unfold io_bind.
  destruct (turn_cases st1 x log1)
    as [(Hr & _) | [(Hr & _)
       | [(_ & _ & body' & Hbody' & Hturn) | (_ & _ & e' & He' & _)]]];
    try congruence.
  rewrite Hturn. replace body' with body by congruence.
  rewrite Hnet. reflexivity.
Qed.

End Loop.

Section Defaults.
Context `{Runtime}.
Variable net : network.
Variable students : list (gmap string json).
Variable now : Z.
Variable lineToken : string.

Lemma default_flags :
  default_settings !! "remind_24h" = Some (JBool true)
  /\ default_settings !! "remind_3h" = Some (JBool true)
  /\ default_settings !! "remind_1h" = Some (JBool false).
Proof. repeat split. Qed.

(** X12. Under the default settings the 1-hour window is never due, and
    an eligible schedule 45 to 75 minutes ahead is recorded as skipped
    without any request. *)
Theorem one_hour_window_off_by_default :
  (forall d, truthy (is1h default_settings d) = false)
  /\ (forall schedule st log m,
       Spec.eligible schedule = true ->
       diffMin schedule now = Some m ->
       45 <= m <= 75 ->
       iteration net default_settings students now lineToken st schedule log
       = (log, Resolved {| sent := sent st;
                           skipped := skipped st
                                      ++ [Notions.skip_of now schedule] |})).
Proof.
  destruct default_flags as (H24 & H3 & H1).
  assert (forall d, truthy (is1h default_settings d) = false) as Hoff.
  { intros d. unfold is1h. rewrite ReminderCycle.js_and_band, H1.
    reflexivity. }
  split; [exact Hoff|].
  intros schedule st log m Hel Hd Hm.
  apply ReminderCycle.turn_no_window; [exact Hel|].
  unfold Spec.some_window_due. rewrite Hoff, Hd. unfold is24h, is3h.
  rewrite !ReminderCycle.js_and_band, H24, H3. simpl.
  replace (1425 <=? m) with false by (symmetry; apply Z.leb_gt; lia).
  replace (165 <=? m) with false by (symmetry; apply Z.leb_gt; lia).
  reflexivity.
Qed.

End Defaults.

Section Handler.
Context `{Runtime}.
Variable JSON_parse : string -> option list_documents.
Variable net : network.

(** X8. When one of the three configuration values is missing or empty,
    the handler issues no request and answers 500 with a message that
    names the missing values, and only those. *)
Theorem unconfigured_handler_answers_500 env now log :
  ~ Spec.configured env ->
  handler JSON_parse net env now log =
  (log, Resolved {| statusCode := 500;
                    body := ErrorBody ("環境変数が不足: "
                                       +:+ join ", " (missing_names env)) |})
  /\ missing_names env <> []
  /\ forall n,
       n ∈ missing_names env <->
       (n = "LINE_CHANNEL_ACCESS_TOKEN"
        /\ env_truthy (LINE_CHANNEL_ACCESS_TOKEN env) = false)
       \/ (n = "FIREBASE_PROJECT_ID"
           /\ env_truthy (FIREBASE_PROJECT_ID env) = false)
       \/ (n = "FIREBASE_WEB_API_KEY"
           /\ env_truthy (FIREBASE_WEB_API_KEY env) = false).
Proof.
  unfold Spec.configured, handler, missing_names. intros Hnot.
  destruct (env_truthy (LINE_CHANNEL_ACCESS_TOKEN env)),
           (env_truthy (FIREBASE_PROJECT_ID env)),
           (env_truthy (FIREBASE_WEB_API_KEY env));
    try (exfalso; apply Hnot; repeat split; reflexivity);
    simpl; (split; [reflexivity|]); (split; [discriminate|]);
    intros n; rewrite ?elem_of_cons, elem_of_nil;
    intuition (try discriminate; try congruence).
Qed.

(** What the handler does once the listing is parsed. *)
Lemma handler_on_listing env now log res parsed :
  Spec.configured env ->
  net log (Notions.listing env) = Resolved res ->
  JS.statusCode res = 200 ->
  JSON_parse (data res) = Some parsed ->
  let records := Notions.records_of parsed in
  handler JSON_parse net env now log =
  match for_of (iteration net (Notions.settings_of records)
                  (Notions.students_of records) now
                  (env_string (LINE_CHANNEL_ACCESS_TOKEN env)))
          (Notions.schedules_of records)
          {| sent := []; skipped := [] |}
          (log ++ [Notions.listing env]) with
  | (log', Resolved final) =>
      (log', Resolved
               {| statusCode := 200;
                  body := SummaryBody
                            (pretty (length (sent final))
                             +:+ "件のリマインドを送信しました")
                            (sent final) (length (skipped final))
                            (Date_toISOString now) |})
  | (log', Rejected e) => (log', Rejected e)
  end.
Proof.
  intros (Ht & Hp & Hk) Hnet Hstatus Hparse records. unfold handler.
  rewrite Ht, Hp, Hk. simpl. unfold io_bind at 1.
  rewrite ReminderCycle.getFirestoreDocs_run. simpl.
  unfold Notions.listing in Hnet. rewrite Hnet, Hstatus, Hparse. simpl.
  unfold io_bind. reflexivity.
Qed.

(** X9. When the listing is read and the handler resolves, it answers
    200 with a summary whose message counts the sent entries, whose sent
    entries name, in order, the students and windows of the schedule
    records that are eligible, due and have a recipient, and whose
    skipped count is the number of eligible schedule records outside
    every enabled band; records of other types are not counted. *)
Theorem summary_of_resolved_cycle env now log res parsed log' answer :
  Spec.configured env ->
  net log (Notions.listing env) = Resolved res ->
  JS.statusCode res = 200 ->
  JSON_parse (data res) = Some parsed ->
  handler JSON_parse net env now log = (log', Resolved answer) ->
  let records := Notions.records_of parsed in
  let schedules := Notions.schedules_of records in
  let settings := Notions.settings_of records in
  let students := Notions.students_of records in
  exists entries,
    answer =
    {| statusCode := 200;
       body := SummaryBody
                 (pretty (length entries) +:+ "件のリマインドを送信しました")
                 entries
                 (length (List.filter (Notions.mistimed settings now)
                                      schedules))
                 (Date_toISOString now) |}
    /\ map (fun e => (student e, label e)) entries
       = map (Notions.reminder_of settings now)
             (List.filter (Notions.reminded settings students now)
                          schedules).
Proof.
  intros Hconf Hnet Hstatus Hparse Hrun records schedules settings students.
  rewrite (handler_on_listing env now log res parsed Hconf Hnet Hstatus
             Hparse) in Hrun.
  fold records in Hrun. fold schedules settings students in Hrun.
  destruct (for_of _ schedules _ _) as [log2 [final|e]] eqn:Hfor;
    [|discriminate].
  injection Hrun as _ <-.
  destruct (cycle_report _ _ _ _ _ _ _ _ _ _ Hfor) as [Hsent Hskip].
  simpl in Hsent, Hskip. exists (sent final). split; [|exact Hsent].
  rewrite Hskip, length_map. reflexivity.
Qed.

(** X10. Whatever the Data Source and the channel do, a response of the
    handler has status 500 or 200: 500 exactly when the configuration is
    incomplete, and then no request was issued; 200 otherwise, and then
    the first request issued was the listing of the collection. *)
Theorem handler_answers_500_or_200 env now log log' answer :
  handler JSON_parse net env now log = (log', Resolved answer) ->
  (~ Spec.configured env /\ statusCode answer = 500 /\ log' = log)
  \/ (Spec.configured env /\ statusCode answer = 200
      /\ exists pushed, log' = log ++ Notions.listing env :: pushed).
Proof.
  unfold Spec.configured, handler. intros Hrun.
  destruct (env_truthy (LINE_CHANNEL_ACCESS_TOKEN env)),
           (env_truthy (FIREBASE_PROJECT_ID env)),
           (env_truthy (FIREBASE_WEB_API_KEY env)); simpl in Hrun;
    try (left; injection Hrun as <- <-;
         split; [intros (? & ? & ?); discriminate | split; reflexivity]).
  right. split; [repeat split|].
  unfold io_bind at 1 in Hrun.
  rewrite ReminderCycle.getFirestoreDocs_run in Hrun. simpl in Hrun.
  fold (Notions.listing env) in Hrun.
  destruct (net log (Notions.listing env)) as [res|e]; [|discriminate].
  destruct (negb (JS.statusCode res =? 200));
    [|destruct (JSON_parse (data res)); [|discriminate]];
    (unfold io_bind in Hrun;
     destruct (for_of _ _ _ _) as [log2 [final|e]] eqn:Hfor; [|discriminate];
     injection Hrun as <- <-; split; [reflexivity|];
     destruct (cycle_requests _ _ _ _ _ _ _ _ _ _ Hfor) as (pushed & -> & _);
     exists pushed; rewrite <- app_assoc; reflexivity).
Qed.

(** X11. When the Data Source answers 200 with a body that does not
    parse, the handler rejects with the syntax error after that one
    request: no response is produced. *)
Theorem unparsable_listing_rejects env now log res :
  Spec.configured env ->
  net log (Notions.listing env) = Resolved res ->
  JS.statusCode res = 200 ->
  JSON_parse (data res) = None ->
  exists m,
    handler JSON_parse net env now log
    = (log ++ [Notions.listing env], Rejected (SyntaxError m)).
Proof.
  intros (Ht & Hp & Hk) Hnet Hstatus Hparse. unfold handler.
  rewrite Ht, Hp, Hk. simpl. unfold io_bind at 1.
  rewrite ReminderCycle.getFirestoreDocs_run. simpl.
  unfold Notions.listing in Hnet. rewrite Hnet, Hstatus, Hparse. simpl.
  eexists. reflexivity.
Qed.

(** X19. When the Data Source answers the listing with a status other
    than 200, the handler issues no further request and answers 200 with
    an empty summary. *)
Theorem refused_listing_gives_empty_summary env now log res :
  Spec.configured env ->
  net log (Notions.listing env) = Resolved res ->
  JS.statusCode res <> 200 ->
  handler JSON_parse net env now log
  = (log ++ [Notions.listing env],
     Resolved {| statusCode := 200;
                 body := SummaryBody "0件のリマインドを送信しました" [] 0
                           (Date_toISOString now) |}).
Proof.
  intros Hconf Hnet Hstatus.
  exact (ReminderCycle.refused_data_source_gives_empty_cycle JSON_parse net
           env now log res Hconf Hnet Hstatus).
Qed.

(** X20. When the request of the listing emits an error, the handler
    rejects with that error after that one request. *)
Theorem failed_listing_rejects env now log e :
  Spec.configured env ->
  net log (Notions.listing env) = Rejected e ->
  handler JSON_parse net env now log
  = (log ++ [Notions.listing env], Rejected e).
Proof.
  intros (Ht & Hp & Hk) Hnet. unfold handler.
  rewrite Ht, Hp, Hk. simpl. unfold io_bind.
  rewrite ReminderCycle.getFirestoreDocs_run. simpl.
  unfold Notions.listing in Hnet. rewrite Hnet. reflexivity.
Qed.

End Handler.

End CycleFacts.

(** * Further properties of the template renderer *)
Module RenderFacts.
Import JS CheckReminders.

Section Render.
Context `{Runtime}.

Lemma String_replace_absent s pat v :
  (forall before after, ~ Spec.occurs_at pat s before after) ->
  String_replace s pat v = s.
Proof.
  intros Habs. unfold String_replace.
  destruct (split_first pat s) as [[before after]|] eqn:Hs; [|reflexivity].
  exfalso. exact (Habs _ _ (Renderer.split_first_occurs _ _ _ _ Hs)).
Qed.

(** X13. A template in which none of the four placeholders occurs is
    rendered as it is, whatever the schedule holds. *)
Theorem template_without_placeholder_is_unchanged template schedule :
  (forall pat before after,
     pat ∈ ["{生徒名}"; "{日時}"; "{科目}"; "{担当講師}"] ->
     ~ Spec.occurs_at pat template before after) ->
  render template schedule = template.
Proof.
  intros Habs. unfold render.
  rewrite (String_replace_absent template "{生徒名}")
    by (intros b a; apply Habs; set_solver).
  rewrite (String_replace_absent template "{日時}")
    by (intros b a; apply Habs; set_solver).
  rewrite (String_replace_absent template "{科目}")
    by (intros b a; apply Habs; set_solver).
  apply String_replace_absent. intros b a. apply Habs. set_solver.
Qed.

(** X21. When the student name, the date and time, the subject and the
    instructor have no dollar sign, the body is the template after four
    replacements, each of the first occurrence of one placeholder by its
    value and in the order name, date and time, subject, instructor; a
    missing subject or instructor counts as the empty text. *)
Theorem render_of_plain_values template schedule :
  let name := ToString (schedule !! "student_name") in
  let subject :=
    ToString (js_or (schedule !! "subject") (Some (JStr EmptyString))) in
  let instructor :=
    ToString (js_or (schedule !! "instructor") (Some (JStr EmptyString))) in
  Spec.dollar_free name = true ->
  Spec.dollar_free (dateStr schedule) = true ->
  Spec.dollar_free subject = true ->
  Spec.dollar_free instructor = true ->
  exists r1 r2 r3,
    Spec.replaces_first template "{生徒名}" name r1
    /\ Spec.replaces_first r1 "{日時}" (dateStr schedule) r2
    /\ Spec.replaces_first r2 "{科目}" subject r3
    /\ Spec.replaces_first r3 "{担当講師}" instructor
         (render template schedule).
Proof. exact (Renderer.render_replaces_first_occurrences template schedule). Qed.

End Render.

End RenderFacts.

(** * Further properties of the ad-hoc broadcast *)
Module BroadcastFacts.
Import JS SendReminder.

Section Handler.
Context `{Runtime}.
Variable JSON_parse : string -> option json.
Variable net : network.

#[local] Abbreviation text_of ev :=
  (match body ev with Some s => s | None => "null" end).

(** X14. A broadcast is refused without any push: with 405 when the
    method is not POST, whatever else is wrong; else with 500 when the
    access token is missing; else with 400 when the body does not parse;
    else with 400 when [userIds] is falsy or not an array, or [message]
    is falsy. *)
Theorem invalid_broadcast_is_refused accessToken ev log :
  (httpMethod ev <> "POST" ->
   handler JSON_parse net accessToken ev log
   = (log, Resolved {| statusCode := 405;
                       resp_body := Text "Method Not Allowed" |}))
  /\ (httpMethod ev = "POST" -> env_truthy accessToken = false ->
      handler JSON_parse net accessToken ev log
      = (log, Resolved
                {| statusCode := 500;
                   resp_body :=
                     ErrorBody
                       "LINE_CHANNEL_ACCESS_TOKEN が設定されていません" |}))
  /\ (httpMethod ev = "POST" -> env_truthy accessToken = true ->
      JSON_parse (text_of ev) = None ->
      handler JSON_parse net accessToken ev log
      = (log, Resolved {| statusCode := 400;
                          resp_body := ErrorBody "Invalid JSON" |}))
  /\ (forall parsed,
        httpMethod ev = "POST" -> env_truthy accessToken = true ->
        JSON_parse (text_of ev) = Some parsed ->
        parsed <> JNull ->
        truthy (property parsed "userIds") = false
        \/ isArray (property parsed "userIds") = false
        \/ truthy (property parsed "message") = false ->
        handler JSON_parse net accessToken ev log
        = (log, Resolved
                  {| statusCode := 400;
                     resp_body :=
                       ErrorBody "userIds (配列) と message が必要です" |})).
Proof.
  repeat split.
  - intros Hm. unfold handler. apply String.eqb_neq in Hm. rewrite Hm.
    reflexivity.
  - intros Hm Ht. unfold handler. rewrite Hm, Ht. reflexivity.
  - intros Hm Ht Hp. unfold handler. rewrite Hm, Ht, Hp. reflexivity.
  - intros parsed Hm Ht Hp Hnull Hbad. unfold handler.
    rewrite Hm, Ht, Hp. simpl.
    assert (negb (truthy (property parsed "userIds"))
            || negb (isArray (property parsed "userIds"))
            || negb (truthy (property parsed "message")) = true) as Hguard.
    { destruct Hbad as [-> | [-> | ->]]; simpl;
        rewrite ?orb_true_r; reflexivity. }
    destruct parsed; try congruence; rewrite Hguard; reflexivity.
Qed.

(** X15. A POST whose body parses to [null], as the body of a request
    without body does, is not refused with 400: the handler throws. *)
Theorem null_body_rejects accessToken ev log :
  httpMethod ev = "POST" -> env_truthy accessToken = true ->
  JSON_parse (text_of ev) = Some JNull ->
  exists m,
    handler JSON_parse net accessToken ev log = (log, Rejected (TypeError m)).
Proof.
  intros Hm Ht Hp. unfold handler. rewrite Hm, Ht, Hp. simpl.
  eexists. reflexivity.
Qed.


(** X17. A broadcast to an empty list of recipients answers 200 with no
    record and issues no request. *)
Theorem empty_broadcast_answers_200 accessToken ev parsed log :
  httpMethod ev = "POST" -> env_truthy accessToken = true ->
  JSON_parse (text_of ev) = Some parsed ->
  property parsed "userIds" = Some (JArr []) ->
  truthy (property parsed "message") = true ->
  handler JSON_parse net accessToken ev log
  = (log, Resolved {| statusCode := 200; resp_body := ResultsBody [] |}).
Proof.
  intros Hm Ht Hp Hids Hmsg. unfold handler. rewrite Hm, Ht, Hp. simpl.
  destruct parsed as [| | | | |members]; try discriminate Hids.
  rewrite Hids, Hmsg. reflexivity.
Qed.

(** X18. [pushMessage] issues one request and resolves, with the body of
    the answer, exactly when the channel answers with status 200; on any
    other answer and when the request emits an error it rejects. *)
Theorem pushMessage_resolves_on_200_only recipient message accessToken log :
  let req := Spec.push_request accessToken (Some recipient) message in
  fst (pushMessage net recipient message accessToken log) = log ++ [req]
  /\ forall text,
       snd (pushMessage net recipient message accessToken log)
       = Resolved text
       <-> exists res, net log req = Resolved res
                       /\ JS.statusCode res = 200 /\ text = data res.
Proof.
  intros req. rewrite Broadcast.pushMessage_run. fold req. simpl.
  split; [reflexivity|]. intros text.
  destruct (net log req) as [res|e].
  - destruct (JS.statusCode res =? 200) eqn:Hs.
    + apply Z.eqb_eq in Hs. split.
      * intros [= <-]. exists res. repeat split. exact Hs.
      * intros (res' & [= <-] & _ & ->). reflexivity.
    + apply Z.eqb_neq in Hs. split; [discriminate|].
      intros (res' & [= <-] & Hs' & _). contradiction.
  - split; [discriminate | intros (res & Hres & _); discriminate].
Qed.

End Handler.

End BroadcastFacts.

(** * Properties of the webhook *)
Module WebhookFacts.
Import JS Webhook.

Section Events.
Context `{Runtime}.
Variable net : network.
Variable accessToken : string.

#[local] Abbreviation handle lineEvent :=
  (handleLineEvent net lineEvent accessToken).

Lemma replyMessage_run replyToken text log :
  replyMessage net replyToken text accessToken log =
  (log ++ [Notions.reply_to accessToken replyToken text],
   match net log (Notions.reply_to accessToken replyToken text) with
   | Resolved res => Resolved (data res)
   | Rejected e => Rejected e
   end).
Proof. reflexivity. Qed.

Lemma replyText_for_notice text replyText :
  replyText_for text = Resolved replyText -> replyText ∈ Notions.notices.
Proof.
  unfold replyText_for, Notions.notices. intros Hr.
  destruct (or_else (includes text "授業") (includes text "スケジュール"))
    as [[|]|]; [injection Hr as <-; set_solver | | discriminate].
  destruct (or_else (includes text "欠席") (includes text "休む"))
    as [[|]|]; [injection Hr as <-; set_solver | | discriminate].
  destruct (strict_eq text (Some (JStr "テスト"))
            || strict_eq text (Some (JStr "test")));
    injection Hr as <-; set_solver.
Qed.

Lemma bind_ret_l {A B} (a : A) (k : A -> io B) log :
  bind (ret a) k log = k a log.
Proof. reflexivity. Qed.

Lemma reply_then_done replyToken text log :
  bind (replyMessage net replyToken text accessToken) (fun _ => ret tt) log
  = (log ++ [Notions.reply_to accessToken replyToken text],
     match net log (Notions.reply_to accessToken replyToken text) with
     | Resolved _ => Resolved tt
     | Rejected e => Rejected e
     end).
Proof.
  unfold bind. rewrite replyMessage_run. destruct (net log _); reflexivity.
Qed.

(** The block of [handleLineEvent] for text messages ... *)
#[local] Abbreviation message_block lineEvent :=
  (if strict_eq (SendReminder.property lineEvent "type")
                (Some (JStr "message"))
      && strict_eq (optional_property
                      (SendReminder.property lineEvent "message") "type")
                   (Some (JStr "text"))
   then
     match replyText_for
             (optional_property
                (SendReminder.property lineEvent "message") "text") with
     | Rejected e => throw e
     | Resolved replyText =>
         if truthy (js_and (SendReminder.property lineEvent "replyToken")
                           (Some (JStr replyText)))
         then bind (replyMessage net
                      (SendReminder.property lineEvent "replyToken")
                      replyText accessToken)
                   (fun _ => ret tt)
         else ret tt
     end
   else ret tt).

(** ... and the block for follow events. *)
#[local] Abbreviation follow_block lineEvent :=
  (if strict_eq (SendReminder.property lineEvent "type")
                (Some (JStr "follow"))
   then
     if truthy (SendReminder.property lineEvent "replyToken")
     then bind (replyMessage net
                  (SendReminder.property lineEvent "replyToken")
                  welcome_notice accessToken)
               (fun _ => ret tt)
     else ret tt
   else ret tt).

Lemma handle_unfold lineEvent :
  lineEvent <> JNull ->
  handle lineEvent
  = bind (message_block lineEvent) (fun _ => follow_block lineEvent).
Proof. destruct lineEvent; [congruence | reflexivity..]. Qed.

Lemma message_is_not_follow (type : option json) :
  strict_eq type (Some (JStr "message")) = true ->
  strict_eq type (Some (JStr "follow")) = false.
Proof.
  destruct type as [[| | |t| |]|]; try discriminate. simpl.
  intros ->%String.eqb_eq. reflexivity.
Qed.

Lemma truthy_js_and_text (a : option json) (text : string) :
  truthy (js_and a (Some (JStr text))) = true -> truthy a = true.
Proof.
  unfold js_and. destruct (truthy a) eqn:Ha; [reflexivity|].
  rewrite Ha. discriminate.
Qed.

(** One event gives rise to no request, or to one reply under its own
    reply token. *)
Lemma handle_requests lineEvent log :
  fst (handle lineEvent log) = log
  \/ exists text,
       (text ∈ Notions.notices \/ text = welcome_notice)
       /\ truthy (SendReminder.property lineEvent "replyToken") = true
       /\ fst (handle lineEvent log)
          = log ++ [Notions.reply_to accessToken
                      (SendReminder.property lineEvent "replyToken") text].
Proof.
  assert (lineEvent = JNull \/ lineEvent <> JNull) as [-> | Hnull]
    by (destruct lineEvent; [left; reflexivity | right; discriminate..]).
  { left. reflexivity. }
  rewrite (handle_unfold lineEvent Hnull).
  destruct (strict_eq (SendReminder.property lineEvent "type")
                      (Some (JStr "message"))) eqn:Hmsg.
  - rewrite (message_is_not_follow _ Hmsg). simpl.
    destruct (strict_eq (optional_property _ "type") (Some (JStr "text")));
      [|left; reflexivity].
    destruct (replyText_for _) as [replyText|e] eqn:Hreply;
      [|left; reflexivity].
    destruct (truthy (js_and _ _)) eqn:Htok; [|left; reflexivity].
    right. exists replyText.
    split; [left; exact (replyText_for_notice _ _ Hreply)|].
    split; [exact (truthy_js_and_text _ _ Htok)|].
    unfold bind at 1. rewrite reply_then_done.
    destruct (net log _); reflexivity.
  - cbn [andb]. rewrite bind_ret_l.
    destruct (strict_eq _ (Some (JStr "follow"))); [|left; reflexivity].
    destruct (truthy _) eqn:Ht; [|left; reflexivity].
    right. exists welcome_notice. split; [right; reflexivity|].
    split; [reflexivity|]. rewrite reply_then_done. reflexivity.
Qed.

Lemma includes_text s needle :
  exists found,
    includes (Some (JStr s)) needle = Resolved found
    /\ (found = true <-> Notions.mentions s needle).
Proof.
  unfold includes, Notions.mentions.
  destruct (split_first needle s) as [[before after]|] eqn:Hs.
  - exists true. split; [reflexivity|]. split; [|reflexivity].
    intros _. exists before, after.
    exact (Renderer.split_first_occurs _ _ _ _ Hs).
  - exists false. split; [reflexivity|]. split; [discriminate|].
    intros (before & after & Hocc). exfalso.
    exact (Renderer.split_first_none _ _ Hs _ _ Hocc).
Qed.

(** The notice chosen for a text: the first of the class notice, the
    absence notice and the test notice whose condition holds. *)
Lemma replyText_for_text s :
  exists notice,
    replyText_for (Some (JStr s)) = Resolved notice
    /\ (Notions.mentions s "授業" \/ Notions.mentions s "スケジュール" ->
        notice = class_notice)
    /\ (~ Notions.mentions s "授業" -> ~ Notions.mentions s "スケジュール" ->
        (Notions.mentions s "欠席" \/ Notions.mentions s "休む" ->
         notice = absence_notice)
        /\ (~ Notions.mentions s "欠席" -> ~ Notions.mentions s "休む" ->
            (s = "テスト" \/ s = "test" -> notice = test_notice)
            /\ (s <> "テスト" -> s <> "test" -> notice = default_notice))).
Proof.
  unfold replyText_for.
  destruct (includes_text s "授業") as (c1 & -> & H1).
  destruct (includes_text s "スケジュール") as (c2 & -> & H2).
  destruct (includes_text s "欠席") as (a1 & -> & H3).
  destruct (includes_text s "休む") as (a2 & -> & H4).
  simpl.
  assert (forall b P, (b = true <-> P) -> b = false -> ~ P) as Hno
    by (intros b P Hb -> HP; apply Hb in HP; discriminate).
  assert (forall b P, (b = true <-> P) -> b = true -> P) as Hyes
    by (intros b P Hb Ht; apply Hb, Ht).
  destruct c1 eqn:E1;
    [eexists; split; [reflexivity|]; split; [reflexivity|];
     intros Hn; exfalso; exact (Hn (Hyes _ _ H1 eq_refl))|].
  destruct c2 eqn:E2;
    [eexists; split; [reflexivity|]; split; [reflexivity|];
     intros _ Hn; exfalso; exact (Hn (Hyes _ _ H2 eq_refl))|].
  pose proof (Hno _ _ H1 eq_refl) as N1.
  pose proof (Hno _ _ H2 eq_refl) as N2.
  destruct a1 eqn:E3;
    [eexists; split; [reflexivity|]; split; [tauto|];
     intros _ _; split; [reflexivity|];
     intros Hn; exfalso; exact (Hn (Hyes _ _ H3 eq_refl))|].
  destruct a2 eqn:E4;
    [eexists; split; [reflexivity|]; split; [tauto|];
     intros _ _; split; [reflexivity|];
     intros _ Hn; exfalso; exact (Hn (Hyes _ _ H4 eq_refl))|].
  pose proof (Hno _ _ H3 eq_refl) as N3.
  pose proof (Hno _ _ H4 eq_refl) as N4.
  destruct (String.eqb_spec s "テスト") as [-> | Hn1]; simpl.
  - eexists. split; [reflexivity|]. split; [tauto|]. intros _ _.
    split; [tauto|]. intros _ _. split; [reflexivity | congruence].
  - destruct (String.eqb_spec s "test") as [-> | Hn2]; simpl.
    + eexists. split; [reflexivity|]. split; [tauto|]. intros _ _.
      split; [tauto|]. intros _ _. split; [reflexivity | congruence].
    + eexists. split; [reflexivity|]. split; [tauto|]. intros _ _.
      split; [tauto|]. intros _ _. split; [|reflexivity].
      intros [-> | ->]; congruence.
Qed.

(** X23. An event that is a text message with a reply token is answered
    with exactly one reply under that token.  The text of the reply is
    the class notice when the message mentions 授業 or スケジュール, even
    if it also mentions an absence; otherwise the absence notice when it
    mentions 欠席 or 休む; otherwise the test notice when it is exactly
    テスト or test, and the default notice in every other case. *)
Theorem text_message_is_answered_once lineEvent message s log :
  SendReminder.property lineEvent "type" = Some (JStr "message") ->
  SendReminder.property lineEvent "message" = Some message ->
  SendReminder.property message "type" = Some (JStr "text") ->
  SendReminder.property message "text" = Some (JStr s) ->
  truthy (SendReminder.property lineEvent "replyToken") = true ->
  exists notice,
    fst (handle lineEvent log)
    = log ++ [Notions.reply_to accessToken
                (SendReminder.property lineEvent "replyToken") notice]
    /\ (Notions.mentions s "授業" \/ Notions.mentions s "スケジュール" ->
        notice = class_notice)
    /\ (~ Notions.mentions s "授業" -> ~ Notions.mentions s "スケジュール" ->
        (Notions.mentions s "欠席" \/ Notions.mentions s "休む" ->
         notice = absence_notice)
        /\ (~ Notions.mentions s "欠席" -> ~ Notions.mentions s "休む" ->
            (s = "テスト" \/ s = "test" -> notice = test_notice)
            /\ (s <> "テスト" -> s <> "test" -> notice = default_notice))).
Proof.
  intros Htype Hmessage Hmtype Htext Htoken.
  assert (lineEvent <> JNull) as Hnull by (intros ->; discriminate).
  assert (message <> JNull) as Hmnull by (intros ->; discriminate).
  destruct (replyText_for_text s) as (notice & Hnotice & Hprio).
  exists notice. split; [|exact Hprio].
  rewrite (handle_unfold lineEvent Hnull), Htype, Hmessage.
  assert (optional_property (Some message) "type" = Some (JStr "text"))
    as -> by (destruct message; try congruence; exact Hmtype).
  assert (optional_property (Some message) "text" = Some (JStr s))
    as -> by (destruct message; try congruence; exact Htext).
  rewrite Hnotice. simpl.
  assert (truthy (js_and (SendReminder.property lineEvent "replyToken")
                         (Some (JStr notice))) = true) as ->.
  { unfold js_and. rewrite Htoken.
    pose proof (replyText_for_notice _ _ Hnotice) as Hin.
    unfold Notions.notices in Hin.
    repeat (apply elem_of_cons in Hin as [-> | Hin]; [reflexivity|]).
    inversion Hin. }
  unfold bind at 1. rewrite reply_then_done.
  destruct (net log _); reflexivity.
Qed.

(** X24. An event without a reply token never gives rise to a request,
    and an event that is neither a message nor a follow does nothing. *)
Theorem event_without_reply lineEvent log :
  (truthy (SendReminder.property lineEvent "replyToken") = false ->
   fst (handle lineEvent log) = log)
  /\ (lineEvent <> JNull ->
      strict_eq (SendReminder.property lineEvent "type")
                (Some (JStr "message")) = false ->
      strict_eq (SendReminder.property lineEvent "type")
                (Some (JStr "follow")) = false ->
      handle lineEvent log = (log, Resolved tt)).
Proof.
  split.
  - intros Htoken.
    destruct (handle_requests lineEvent log) as [Hsame | (t & _ & Ht & _)];
      [exact Hsame | congruence].
  - intros Hnull Hmsg Hfollow.
    rewrite (handle_unfold lineEvent Hnull), Hmsg, Hfollow. reflexivity.
Qed.

(** X25. A follow event with a reply token is answered with the welcome
    notice under that token, and with nothing else. *)
Theorem follow_event_is_welcomed lineEvent log :
  SendReminder.property lineEvent "type" = Some (JStr "follow") ->
  truthy (SendReminder.property lineEvent "replyToken") = true ->
  handle lineEvent log
  = (log ++ [Notions.reply_to accessToken
               (SendReminder.property lineEvent "replyToken")
               welcome_notice],
     match net log (Notions.reply_to accessToken
                      (SendReminder.property lineEvent "replyToken")
                      welcome_notice) with
     | Resolved _ => Resolved tt
     | Rejected e => Rejected e
     end).
Proof.
  intros Htype Htoken.
  assert (lineEvent <> JNull) as Hnull by (intros ->; discriminate).
  rewrite (handle_unfold lineEvent Hnull), Htype, Htoken. simpl.
  rewrite bind_ret_l. apply reply_then_done.
Qed.

Lemma swallow_run (m : io unit) log :
  swallow m log = (fst (m log), Resolved tt).
Proof.
  unfold swallow. destruct (m log) as [log' [[]|e]]; reflexivity.
Qed.

(** The loop over the events never rejects and replies at most once per
    event. *)
Lemma events_run items log :
  exists replies,
    for_each (fun lineEvent => swallow (handle lineEvent)) items log
    = (log ++ replies, Resolved tt)
    /\ (length replies <= length items)%nat
    /\ Forall (fun req =>
                 exists lineEvent text,
                   lineEvent ∈ items
                   /\ (text ∈ Notions.notices \/ text = welcome_notice)
                   /\ truthy (SendReminder.property lineEvent "replyToken")
                      = true
                   /\ req = Notions.reply_to accessToken
                              (SendReminder.property lineEvent "replyToken")
                              text) replies.
Proof.
  revert log. induction items as [|x rest IH]; intros log.
  - exists []. rewrite app_nil_r. repeat split; [reflexivity | constructor].
  - simpl. unfold bind. rewrite swallow_run.
    assert (forall log1 extra,
              fst (handle x log) = log ++ extra ->
              (length extra <= 1)%nat ->
              Forall (fun req =>
                 exists lineEvent text,
                   lineEvent ∈ x :: rest
                   /\ (text ∈ Notions.notices \/ text = welcome_notice)
                   /\ truthy (SendReminder.property lineEvent "replyToken")
                      = true
                   /\ req = Notions.reply_to accessToken
                              (SendReminder.property lineEvent "replyToken")
                              text) extra ->
              log1 = fst (handle x log) ->
              exists replies,
                for_each (fun lineEvent => swallow (handle lineEvent)) rest log1
                = (log ++ replies, Resolved tt)
                /\ (length replies <= length (x :: rest))%nat
                /\ Forall (fun req =>
                     exists lineEvent text,
                       lineEvent ∈ x :: rest
                       /\ (text ∈ Notions.notices \/ text = welcome_notice)
                       /\ truthy (SendReminder.property lineEvent
                                    "replyToken") = true
                       /\ req = Notions.reply_to accessToken
                                  (SendReminder.property lineEvent
                                     "replyToken") text) replies) as Hstep.
    { intros log1 extra Hfst Hlen Hextra ->.
      destruct (IH (fst (handle x log))) as (replies & Hrun & Hle & Hall).
      exists (extra ++ replies). rewrite Hrun, Hfst, <- app_assoc.
      split; [reflexivity|]. split.
      - rewrite length_app. simpl. lia.
      - apply Forall_app. split; [exact Hextra|].
        eapply Forall_impl; [exact Hall|]. simpl.
        intros req (lineEvent & text & Hin & Hrest').
        exists lineEvent, text. split; [right; exact Hin | exact Hrest']. }
    destruct (handle_requests x log) as [Hsame | (text & Htext & Htok & Hfst)].
    + apply (Hstep _ []); [rewrite app_nil_r; exact Hsame | simpl; lia
                          | constructor | reflexivity].
    + apply (Hstep _ [Notions.reply_to accessToken
                        (SendReminder.property x "replyToken") text]);
        [exact Hfst | simpl; lia | | reflexivity].
      constructor; [|constructor]. exists x, text.
      repeat split; [left | exact Htext | exact Htok].
Qed.

End Events.

Section Handler.
Context `{Runtime}.
Variable hmac_sha256_base64 : string -> string -> string.
Variable JSON_parse : string -> option json.
Variable net : network.

#[local] Abbreviation hook := (handler hmac_sha256_base64 JSON_parse net).

(** X26. The webhook issues no reply and refuses the call with 405 when
    the method is not POST; else with 500 when the channel secret or the
    access token is missing; else with 401 when the signature header is
    missing or empty, or differs from the digest of the body under the
    channel secret. *)
Theorem unsigned_webhook_is_refused env ev log :
  (httpMethod ev <> "POST" ->
   hook env ev log
   = (log, Resolved {| statusCode := 405;
                       resp_body := ErrorBody "Method Not Allowed" |}))
  /\ (httpMethod ev = "POST" ->
      env_truthy (LINE_CHANNEL_SECRET env) = false
      \/ env_truthy (LINE_CHANNEL_ACCESS_TOKEN env) = false ->
      hook env ev log
      = (log, Resolved {| statusCode := 500;
                          resp_body :=
                            ErrorBody "Server configuration error" |}))
  /\ (httpMethod ev = "POST" ->
      env_truthy (LINE_CHANNEL_SECRET env) = true ->
      env_truthy (LINE_CHANNEL_ACCESS_TOKEN env) = true ->
      env_truthy (headers ev !! "x-line-signature") = false
      \/ (exists text signature,
            body ev = Some text
            /\ headers ev !! "x-line-signature" = Some signature
            /\ hmac_sha256_base64 (env_string (LINE_CHANNEL_SECRET env)) text
               <> signature) ->
      hook env ev log
      = (log, Resolved {| statusCode := 401;
                          resp_body := ErrorBody "Invalid signature" |})).
Proof.
  repeat split.
  - intros Hm. unfold handler. apply String.eqb_neq in Hm. rewrite Hm.
    reflexivity.
  - intros Hm Hconf. unfold handler. rewrite Hm. simpl.
    destruct Hconf as [-> | ->]; simpl; rewrite ?orb_true_r; reflexivity.
  - intros Hm Hs Ht Hsig. unfold handler. rewrite Hm, Hs, Ht. simpl.
    unfold verifySignature.
    destruct Hsig as [-> | (text & signature & -> & -> & Hdiff)];
      [reflexivity|].
    destruct (env_truthy (Some signature)); simpl; [|reflexivity].
    apply String.eqb_neq in Hdiff. rewrite Hdiff. reflexivity.
Qed.

Lemma accepted_run env ev parsed log :
  Notions.accepted hmac_sha256_base64 JSON_parse env ev parsed ->
  parsed <> JNull ->
  hook env ev log
  = match iterate (js_or (SendReminder.property parsed "events")
                         (Some (JArr []))) with
    | Rejected e => (log, Rejected e)
    | Resolved events =>
        bind (for_each
                (fun lineEvent =>
                   swallow (handleLineEvent net lineEvent
                              (env_string (LINE_CHANNEL_ACCESS_TOKEN env))))
                events)
             (fun _ => ret {| statusCode := 200;
                              resp_body := StatusBody "ok" |}) log
    end.
Proof.
  intros (Hm & Hs & Ht & text & signature & Hb & Hh & Hne & Hd & Hp) Hnull.
  unfold handler. rewrite Hm, Hs, Ht. simpl. unfold verifySignature.
  rewrite Hb, Hh. simpl. apply String.eqb_neq in Hne. rewrite Hne. simpl.
  rewrite Hd, String.eqb_refl, Hp.
  destruct parsed; try congruence;
    destruct (iterate _); reflexivity.
Qed.

(** X27. A signed call whose events are missing or an array is answered
    with 200 whatever the events hold and whatever the channel does: an
    event that throws or whose reply fails does not stop the others.  At
    most one reply is issued per event, each under the reply token of an
    event of the call and with one of the five notices. *)
Theorem accepted_webhook_answers_200 env ev parsed items log :
  Notions.accepted hmac_sha256_base64 JSON_parse env ev parsed ->
  parsed <> JNull ->
  (truthy (SendReminder.property parsed "events") = false /\ items = []
   \/ SendReminder.property parsed "events" = Some (JArr items)) ->
  exists replies,
    hook env ev log
    = (log ++ replies,
       Resolved {| statusCode := 200; resp_body := StatusBody "ok" |})
    /\ (length replies <= length items)%nat
    /\ Forall (fun req =>
                 exists lineEvent text,
                   lineEvent ∈ items
                   /\ (text ∈ Notions.notices \/ text = welcome_notice)
                   /\ truthy (SendReminder.property lineEvent "replyToken")
                      = true
                   /\ req = Notions.reply_to
                              (env_string (LINE_CHANNEL_ACCESS_TOKEN env))
                              (SendReminder.property lineEvent "replyToken")
                              text) replies.
Proof.
  intros Hacc Hnull Hevents.
  rewrite (accepted_run env ev parsed log Hacc Hnull).
  assert (iterate (js_or (SendReminder.property parsed "events")
                         (Some (JArr []))) = Resolved items) as ->.
  { unfold js_or. destruct Hevents as [[-> ->] | ->]; reflexivity. }
  unfold bind.
  destruct (events_run net (env_string (LINE_CHANNEL_ACCESS_TOKEN env))
              items log) as (replies & -> & Hle & Hall).
  exists replies. repeat split; assumption.
Qed.

(** X28. A signed call whose body is [null], or whose [events] is a
    number, [true] or an object, makes the handler throw before any
    event is handled. *)
Theorem unusable_events_reject env ev parsed log :
  Notions.accepted hmac_sha256_base64 JSON_parse env ev parsed ->
  parsed = JNull
  \/ (exists n, SendReminder.property parsed "events" = Some (JNum n)
                /\ Number_ToBoolean n = true)
  \/ SendReminder.property parsed "events" = Some (JBool true)
  \/ (exists members,
        SendReminder.property parsed "events" = Some (JObj members)) ->
  exists m, hook env ev log = (log, Rejected (TypeError m)).
Proof.
  intros Hacc Hbad.
  assert (parsed = JNull \/ parsed <> JNull) as [-> | Hnull]
    by (destruct parsed; [left; reflexivity | right; discriminate..]).
  - destruct Hacc as (Hm & Hs & Ht & text & signature & Hb & Hh & Hne & Hd
                      & Hp).
    unfold handler. rewrite Hm, Hs, Ht. simpl. unfold verifySignature.
    rewrite Hb, Hh. simpl. apply String.eqb_neq in Hne. rewrite Hne. simpl.
    rewrite Hd, String.eqb_refl, Hp. eexists. reflexivity.
  - rewrite (accepted_run env ev parsed log Hacc Hnull).
    destruct Hbad as [-> | [(n & -> & Hn) | [-> | (members & ->)]]];
      [congruence | | |]; unfold js_or; simpl; rewrite ?Hn;
      eexists; reflexivity.
Qed.

End Handler.

End WebhookFacts.

(** * Further worked scenarios *)
Module MoreScenarios.
Import JS.

#[local] Existing Instance Sample.runtime.

(** The identifier of a stored document is the last segment of its name. *)
Lemma split_pop_last_segment_witness :
  split_pop ("projects/p/databases/(default)/documents/system_data"
             +:+ "/" +:+ "c1") = "c1".
Proof.
  refine (proj1 (proj2 Normalizer.split_pop_last_segment)
            "projects/p/databases/(default)/documents/system_data" "c1" _).
  evaluate.
Defined.


(** Three classes, one of them marked absent; LINE refuses the second
    push with 401. *)
Lemma resolved_cycle_report_witness :
  map (fun e => (CheckReminders.student e, CheckReminders.label e))
      (CheckReminders.sent Cases.recorded)
  = map (fun e => (CheckReminders.student e, CheckReminders.label e))
        (CheckReminders.sent Sample.start)
    ++ map (Notions.reminder_of CheckReminders.default_settings
              Sample.day_before)
           (List.filter
              (Notions.reminded CheckReminders.default_settings
                 Cases.students Sample.day_before) Cases.classes)
  /\ CheckReminders.skipped Cases.recorded
     = CheckReminders.skipped Sample.start
       ++ map (Notions.skip_of Sample.day_before)
              (List.filter
                 (Notions.mistimed CheckReminders.default_settings
                    Sample.day_before) Cases.classes).
Proof.
  refine (CycleFacts.resolved_cycle_report Cases.net_refuses_second
            CheckReminders.default_settings Cases.students Sample.day_before
            "token" Cases.classes Sample.start []
            (fst (for_of (CheckReminders.iteration Cases.net_refuses_second
                            CheckReminders.default_settings Cases.students
                            Sample.day_before "token")
                    Cases.classes Sample.start []))
            Cases.recorded _).
  evaluate.
Defined.

Lemma cycle_only_pushes_reminders_witness :
  exists pushed,
    fst (for_of (CheckReminders.iteration Sample.net_one_down
                   CheckReminders.default_settings Cases.students
                   Sample.day_before "token")
           Cases.classes Sample.start [])
    = [] ++ pushed.
Proof.
  destruct (CycleFacts.cycle_only_pushes_reminders Sample.net_one_down
              CheckReminders.default_settings Cases.students
              Sample.day_before "token" Cases.classes Sample.start []
              (fst (for_of (CheckReminders.iteration Sample.net_one_down
                              CheckReminders.default_settings Cases.students
                              Sample.day_before "token")
                      Cases.classes Sample.start []))
              (snd (for_of (CheckReminders.iteration Sample.net_one_down
                              CheckReminders.default_settings Cases.students
                              Sample.day_before "token")
                      Cases.classes Sample.start []))
              (surjective_pairing _)) as (pushed & Hlog & _).
  exists pushed. exact Hlog.
Defined.

Lemma resolved_cycle_statuses_witness :
  exists entries (pushed : list http_request),
    CheckReminders.sent Cases.recorded
    = CheckReminders.sent Sample.start ++ entries
    /\ length entries = length pushed.
Proof.
  destruct (CycleFacts.resolved_cycle_statuses Cases.net_refuses_second
              CheckReminders.default_settings Cases.students
              Sample.day_before "token" Cases.classes Sample.start []
              (fst (for_of (CheckReminders.iteration Cases.net_refuses_second
                              CheckReminders.default_settings Cases.students
                              Sample.day_before "token")
                      Cases.classes Sample.start []))
              Cases.recorded ltac:(evaluate))
    as (entries & pushed & Hsent & _ & Hlen & _).
  exists entries, pushed. split; assumption.
Defined.

(** The stored schedule without a student name leaves no trace. *)
Lemma undecodable_field_excludes_schedule_witness :
  CheckReminders.iteration Sample.net_ok CheckReminders.default_settings
    Cases.students Sample.day_before "token" Sample.start
    (CheckReminders.parseFirestoreDoc Cases.nameless) []
  = ([], Resolved Sample.start).
Proof.
  refine (CycleFacts.undecodable_field_excludes_schedule Sample.net_ok
            CheckReminders.default_settings Cases.students Sample.day_before
            "token" Cases.nameless "student_name" Sample.start [] _ _ _).
  - compute_done.
  - right. right. reflexivity.
  - left. compute_done.
Defined.

(** A template stored as the number 5. *)
Lemma non_text_template_rejects_witness :
  exists m,
    CheckReminders.iteration Sample.net_ok Cases.settings_with_number
      Cases.students Sample.day_before "token" Sample.start
      (Sample.class_of "花子") []
    = ([], Rejected (TypeError m)).
Proof.
  refine (CycleFacts.non_text_template_rejects Sample.net_ok
            Cases.settings_with_number Cases.students Sample.day_before
            "token" (JNum 5) (Sample.class_of "花子") Sample.start []
            _ _ _ _).
  - evaluate.
  - evaluate.
  - intros text. discriminate.
  - evaluate.
Defined.

(** The push to 太郎 fails after the one to 花子 went through. *)
Lemma failed_push_stops_cycle_witness :
  snd (for_of (CheckReminders.iteration Sample.net_one_down
                 CheckReminders.default_settings Cases.students
                 Sample.day_before "token")
         ([Sample.class_of "花子"]
          ++ Sample.class_of "太郎" :: [Sample.class_of "花子"])
         Sample.start [])
  = Rejected (Error "socket hang up").
Proof.
  rewrite (CycleFacts.failed_push_stops_cycle Sample.net_one_down
             CheckReminders.default_settings Cases.students
             Sample.day_before "token"
             [Sample.class_of "花子"] (Sample.class_of "太郎")
             [Sample.class_of "花子"] Sample.start []
             (fst (for_of (CheckReminders.iteration Sample.net_one_down
                             CheckReminders.default_settings Cases.students
                             Sample.day_before "token")
                     [Sample.class_of "花子"] Sample.start []))
             {| CheckReminders.sent :=
                  [ {| CheckReminders.student := Some (JStr "花子");
                       CheckReminders.label := "24時間前";
                       CheckReminders.lineStatus := 200 |} ];
                CheckReminders.skipped := [] |}
             (CheckReminders.render CheckReminders.default_template
                (Sample.class_of "太郎"))
             (Error "socket hang up")
             ltac:(evaluate) ltac:(evaluate) ltac:(evaluate) ltac:(evaluate)).
  reflexivity.
Defined.

(** One hour before the class nothing is sent under the defaults. *)
Lemma one_hour_window_off_by_default_witness :
  CheckReminders.iteration Sample.net_ok CheckReminders.default_settings
    Cases.students Cases.hour_before "token" Sample.start
    (Sample.class_of "花子") []
  = ([], Resolved
           {| CheckReminders.sent := CheckReminders.sent Sample.start;
              CheckReminders.skipped :=
                CheckReminders.skipped Sample.start
                ++ [Notions.skip_of Cases.hour_before
                      (Sample.class_of "花子")] |}).
Proof.
  refine (proj2 (CycleFacts.one_hour_window_off_by_default Sample.net_ok
                   Cases.students Cases.hour_before "token")
            (Sample.class_of "花子") Sample.start [] 60 _ _ _).
  - evaluate.
  - evaluate.
  - lia.
Defined.

(** The Firebase key is not set. *)
Lemma unconfigured_handler_answers_500_witness :
  CheckReminders.handler Sample.parse_stored Sample.net_ok
    Cases.env_without_key Sample.day_before []
  = ([], Resolved
           {| CheckReminders.statusCode := 500;
              CheckReminders.body :=
                CheckReminders.ErrorBody
                  ("環境変数が不足: "
                   +:+ join ", "
                         (CheckReminders.missing_names
                            Cases.env_without_key)) |}).
Proof.
  refine (proj1 (CycleFacts.unconfigured_handler_answers_500
                   Sample.parse_stored Sample.net_ok Cases.env_without_key
                   Sample.day_before [] _)).
  intros (_ & _ & Hkey). discriminate Hkey.
Defined.

Lemma sample_configured : Spec.configured Sample.env.
Proof. repeat split. Qed.

(** The summary of the first worked scenario. *)
Lemma summary_of_resolved_cycle_witness :
  exists entries,
    map (fun e => (CheckReminders.student e, CheckReminders.label e)) entries
    = map (Notions.reminder_of
             (Notions.settings_of (Notions.records_of Sample.stored))
             Sample.day_before)
          (List.filter
             (Notions.reminded
                (Notions.settings_of (Notions.records_of Sample.stored))
                (Notions.students_of (Notions.records_of Sample.stored))
                Sample.day_before)
             (Notions.schedules_of (Notions.records_of Sample.stored))).
Proof.
  destruct (CycleFacts.summary_of_resolved_cycle Sample.parse_stored
              Sample.net_ok Sample.env Sample.day_before []
              {| statusCode := 200; data := "stored" |} Sample.stored
              (fst (CheckReminders.handler Sample.parse_stored Sample.net_ok
                      Sample.env Sample.day_before []))
              {| CheckReminders.statusCode := 200;
                 CheckReminders.body :=
                   CheckReminders.SummaryBody "2件のリマインドを送信しました"
                     [ {| CheckReminders.student := Some (JStr "花子");
                          CheckReminders.label := "24時間前";
                          CheckReminders.lineStatus := 200 |};
                       {| CheckReminders.student := Some (JStr "太郎");
                          CheckReminders.label := "24時間前";
                          CheckReminders.lineStatus := 200 |} ]
                     0 "1717895100000" |}
              sample_configured ltac:(evaluate) ltac:(evaluate)
              ltac:(evaluate) ltac:(evaluate))
    as (entries & _ & Hmap).
  exists entries. exact Hmap.
Defined.

Lemma handler_answers_500_or_200_witness :
  (~ Spec.configured Sample.env /\ 200 = 500
   /\ fst (CheckReminders.handler Sample.parse_stored
             Sample.net_firestore_refuses Sample.env Sample.day_before [])
      = [])
  \/ (Spec.configured Sample.env /\ 200 = 200
      /\ exists pushed,
           fst (CheckReminders.handler Sample.parse_stored
                  Sample.net_firestore_refuses Sample.env
                  Sample.day_before [])
           = [] ++ Notions.listing Sample.env :: pushed).
Proof.
  refine (CycleFacts.handler_answers_500_or_200 Sample.parse_stored
            Sample.net_firestore_refuses Sample.env Sample.day_before []
            (fst (CheckReminders.handler Sample.parse_stored
                    Sample.net_firestore_refuses Sample.env
                    Sample.day_before []))
            {| CheckReminders.statusCode := 200;
               CheckReminders.body :=
                 CheckReminders.SummaryBody "0件のリマインドを送信しました"
                   [] 0 "1717895100000" |} _).
  evaluate.
Defined.

(** Firestore answers 200 with a page that is not JSON. *)
Lemma unparsable_listing_rejects_witness :
  exists m,
    CheckReminders.handler Sample.parse_stored Cases.net_garbled Sample.env
      Sample.day_before []
    = ([] ++ [Notions.listing Sample.env], Rejected (SyntaxError m)).
Proof.
  refine (CycleFacts.unparsable_listing_rejects Sample.parse_stored
            Cases.net_garbled Sample.env Sample.day_before []
            {| statusCode := 200; data := "<html>" |}
            sample_configured _ _ _); evaluate.
Defined.

(** Firestore refuses the key with 403. *)
Lemma refused_listing_gives_empty_summary_witness :
  CheckReminders.handler Sample.parse_stored Sample.net_firestore_refuses
    Sample.env Sample.day_before []
  = ([] ++ [Notions.listing Sample.env],
     Resolved
       {| CheckReminders.statusCode := 200;
          CheckReminders.body :=
            CheckReminders.SummaryBody "0件のリマインドを送信しました" [] 0
              (Date_toISOString Sample.day_before) |}).
Proof.
  refine (CycleFacts.refused_listing_gives_empty_summary Sample.parse_stored
            Sample.net_firestore_refuses Sample.env Sample.day_before []
            {| statusCode := 403; data := "PERMISSION_DENIED" |}
            sample_configured _ _).
  - evaluate.
  - discriminate.
Defined.

(** Firestore cannot be reached. *)
Lemma failed_listing_rejects_witness :
  CheckReminders.handler Sample.parse_stored Sample.net_firestore_down
    Sample.env Sample.day_before []
  = ([] ++ [Notions.listing Sample.env],
     Rejected (Error "getaddrinfo ENOTFOUND firestore.googleapis.com")).
Proof.
  refine (CycleFacts.failed_listing_rejects Sample.parse_stored
            Sample.net_firestore_down Sample.env Sample.day_before []
            (Error "getaddrinfo ENOTFOUND firestore.googleapis.com")
            sample_configured _).
  evaluate.
Defined.

(** A notice without any placeholder. *)
Lemma template_without_placeholder_is_unchanged_witness :
  CheckReminders.render "本日は休校です" (Sample.class_of "花子")
  = "本日は休校です".
Proof.
  refine (RenderFacts.template_without_placeholder_is_unchanged
            "本日は休校です" (Sample.class_of "花子") _).
  intros pat before after Hin.
  repeat (apply elem_of_cons in Hin as [-> | Hin];
          [apply Renderer.split_first_none; evaluate|]).
  inversion Hin.
Defined.

(** The default template for the class of 花子. *)
Lemma render_of_plain_values_witness :
  exists r1 r2 r3,
    Spec.replaces_first CheckReminders.default_template "{生徒名}"
      (ToString (Sample.class_of "花子" !! "student_name")) r1
    /\ Spec.replaces_first r1 "{日時}"
         (CheckReminders.dateStr (Sample.class_of "花子")) r2
    /\ Spec.replaces_first r2 "{科目}"
         (ToString (js_or (Sample.class_of "花子" !! "subject")
                          (Some (JStr EmptyString)))) r3
    /\ Spec.replaces_first r3 "{担当講師}"
         (ToString (js_or (Sample.class_of "花子" !! "instructor")
                          (Some (JStr EmptyString))))
         (CheckReminders.render CheckReminders.default_template
            (Sample.class_of "花子")).
Proof.
  refine (RenderFacts.render_of_plain_values CheckReminders.default_template
            (Sample.class_of "花子") _ _ _ _); evaluate.
Defined.

(** A GET, and a POST without a message. *)
Lemma invalid_broadcast_is_refused_witness :
  SendReminder.handler Cases.parse_body Sample.net_ok (Some "token")
    {| SendReminder.httpMethod := "GET"; SendReminder.body := None |} []
  = ([], Resolved {| SendReminder.statusCode := 405;
                     SendReminder.resp_body :=
                       SendReminder.Text "Method Not Allowed" |})
  /\ SendReminder.handler Cases.parse_body Sample.net_ok (Some "token")
       (Cases.post "no message") []
     = ([], Resolved
              {| SendReminder.statusCode := 400;
                 SendReminder.resp_body :=
                   SendReminder.ErrorBody
                     "userIds (配列) と message が必要です" |}).
Proof.
  split.
  - refine (proj1 (BroadcastFacts.invalid_broadcast_is_refused
                     Cases.parse_body Sample.net_ok (Some "token")
                     {| SendReminder.httpMethod := "GET";
                        SendReminder.body := None |} []) _).
    discriminate.
  - refine (proj2 (proj2 (proj2
              (BroadcastFacts.invalid_broadcast_is_refused
                 Cases.parse_body Sample.net_ok (Some "token")
                 (Cases.post "no message") [])))
              (JObj [("userIds", JArr [JStr "U1"])]) _ _ _ _ _).
    + reflexivity.
    + reflexivity.
    + evaluate.
    + discriminate.
    + right. right. evaluate.
Defined.

(** A POST whose body is the text [null]. *)
Lemma null_body_rejects_witness :
  exists m,
    SendReminder.handler Cases.parse_body Sample.net_ok (Some "token")
      (Cases.post "null") []
    = ([], Rejected (TypeError m)).
Proof.
  refine (BroadcastFacts.null_body_rejects Cases.parse_body Sample.net_ok
            (Some "token") (Cases.post "null") [] _ _ _); evaluate.
Defined.


Lemma empty_broadcast_answers_200_witness :
  SendReminder.handler Cases.parse_body Sample.net_line_down (Some "token")
    (Cases.post "nobody") []
  = ([], Resolved {| SendReminder.statusCode := 200;
                     SendReminder.resp_body := SendReminder.ResultsBody [] |}).
Proof.
  refine (BroadcastFacts.empty_broadcast_answers_200 Cases.parse_body
            Sample.net_line_down (Some "token") (Cases.post "nobody")
            (JObj [("userIds", JArr []); ("message", JStr "お知らせ")]) []
            _ _ _ _ _); evaluate.
Defined.

(** LINE answers the push to U1 with 200. *)
Lemma pushMessage_resolves_on_200_only_witness :
  snd (SendReminder.pushMessage Sample.net_one_down (JStr "U1")
         (Some (JStr "お知らせ")) "token" [])
  = Resolved "{}".
Proof.
  refine (proj2 (proj2 (BroadcastFacts.pushMessage_resolves_on_200_only
                          Sample.net_one_down (JStr "U1")
                          (Some (JStr "お知らせ")) "token" []) "{}") _).
  exists {| statusCode := 200; data := "{}" |}.
  split; [evaluate | split; reflexivity].
Defined.

(** A message that mentions a class and an absence gets the class
    notice. *)
Lemma text_message_is_answered_once_witness :
  exists notice,
    fst (Webhook.handleLineEvent Cases.hook_net_ok Cases.text_event "token" [])
    = [] ++ [Notions.reply_to "token"
               (SendReminder.property Cases.text_event "replyToken") notice]
    /\ notice = Webhook.class_notice.
Proof.
  destruct (WebhookFacts.text_message_is_answered_once Cases.hook_net_ok
              "token" Cases.text_event
              (JObj [("type", JStr "text");
                     ("text", JStr "明日の授業を欠席します")])
              "明日の授業を欠席します" []
              ltac:(evaluate) ltac:(evaluate) ltac:(evaluate)
              ltac:(evaluate) ltac:(evaluate))
    as (notice & Hlog & Hclass & _).
  exists notice. split; [exact Hlog|]. apply Hclass. left.
  exists "明日の", "を欠席します". unfold Spec.occurs_at. evaluate.
Defined.

(** An unsend event is ignored. *)
Lemma event_without_reply_witness :
  Webhook.handleLineEvent Cases.hook_net_ok Cases.unsend_event "token" []
  = ([], Resolved tt).
Proof.
  refine (proj2 (WebhookFacts.event_without_reply Cases.hook_net_ok "token"
                   Cases.unsend_event []) _ _ _).
  - discriminate.
  - evaluate.
  - evaluate.
Defined.

(** A follow event while LINE is unreachable. *)
Lemma follow_event_is_welcomed_witness :
  fst (Webhook.handleLineEvent Cases.hook_net_down Cases.follow_event
         "token" [])
  = [] ++ [Notions.reply_to "token"
             (SendReminder.property Cases.follow_event "replyToken")
             Webhook.welcome_notice].
Proof.
  rewrite (WebhookFacts.follow_event_is_welcomed Cases.hook_net_down "token"
             Cases.follow_event [] ltac:(evaluate) ltac:(evaluate)).
  reflexivity.
Defined.

(** A delivery with a forged signature. *)
Lemma unsigned_webhook_is_refused_witness :
  Webhook.handler Cases.digest Cases.parse_hook Cases.hook_net_ok
    Cases.hook_env (Cases.forged "delivery") []
  = ([], Resolved {| Webhook.statusCode := 401;
                     Webhook.resp_body :=
                       Webhook.ErrorBody "Invalid signature" |}).
Proof.
  refine (proj2 (proj2 (WebhookFacts.unsigned_webhook_is_refused Cases.digest
                          Cases.parse_hook Cases.hook_net_ok Cases.hook_env
                          (Cases.forged "delivery") [])) _ _ _ _).
  - reflexivity.
  - reflexivity.
  - reflexivity.
  - right. exists "delivery", "forged".
    split; [reflexivity|]. split; [evaluate|]. discriminate.
Defined.

Lemma delivery_accepted :
  Notions.accepted Cases.digest Cases.parse_hook Cases.hook_env
    (Cases.signed "delivery") Cases.delivery.
Proof.
  split; [reflexivity|]. split; [reflexivity|]. split; [reflexivity|].
  exists "delivery", (Cases.digest "secret" "delivery").
  split; [reflexivity|]. split; [evaluate|]. split; [discriminate|].
  split; [reflexivity | evaluate].
Defined.

(** A signed delivery of three events, one of them [null], while LINE is
    unreachable. *)
Lemma accepted_webhook_answers_200_witness :
  exists replies,
    Webhook.handler Cases.digest Cases.parse_hook Cases.hook_net_down
      Cases.hook_env (Cases.signed "delivery") []
    = ([] ++ replies,
       Resolved {| Webhook.statusCode := 200;
                   Webhook.resp_body := Webhook.StatusBody "ok" |})
    /\ (length replies <= 3)%nat.
Proof.
  destruct (WebhookFacts.accepted_webhook_answers_200 Cases.digest
              Cases.parse_hook Cases.hook_net_down Cases.hook_env
              (Cases.signed "delivery") Cases.delivery
              [Cases.text_event; JNull; Cases.follow_event] []
              delivery_accepted ltac:(discriminate)
              (or_intror eq_refl))
    as (replies & Hrun & Hlen & _).
  exists replies. split; [exact Hrun | exact Hlen].
Defined.

(** A signed call whose body is the text [null]. *)
Lemma unusable_events_reject_witness :
  exists m,
    Webhook.handler Cases.digest Cases.parse_hook Cases.hook_net_ok
      Cases.hook_env (Cases.signed "null") []
    = ([], Rejected (TypeError m)).
Proof.
  refine (WebhookFacts.unusable_events_reject Cases.digest Cases.parse_hook
            Cases.hook_net_ok Cases.hook_env (Cases.signed "null") JNull []
            _ (or_introl eq_refl)).
  split; [reflexivity|]. split; [reflexivity|]. split; [reflexivity|].
  exists "null", (Cases.digest "secret" "null").
  split; [reflexivity|]. split; [evaluate|]. split; [discriminate|].
  split; [reflexivity | evaluate].
Defined.

End MoreScenarios.
